(** * CdkVirtualScrollViewport: a shallow embedding

    Source: [src/cdk-experimental/scrolling/virtual-scroll-viewport.ts].

    The component is a class with private fields, mutated by its methods, and
    wired to four collaborators: the DOM element it scrolls, the Angular zone
    and change detector, the injected scroll strategy, and the data stream of
    the attached [CdkVirtualForOf].  The embedding is explicit state passing
    over a [World]: the component's fields ([Viewport]), the part of the
    environment the methods read or write, and a chronological [trace] of the
    effects that leave the component (strategy callbacks, range emissions,
    change-detection marks, writes to the element's scroll position).

    Numbers.  TypeScript's [number] is modelled as [Z]: pixel sizes, offsets
    and indices are integer valued in this development.  [Number_toString]
    prints them the way a template literal does for integers below 10^21.

    Library semantics the component relies on, and how they are modelled:
    - [Subject.next] delivers only while the subject has not been completed;
      [Subject.complete] stops it.  Nothing in the class unsubscribes a
      subject, so [next] never throws.
    - [source.pipe(takeUntil(n)).subscribe(cb)] subscribes to [source]; the
      subscription ends when [n] next emits.  A notifier that is already
      completed never emits, so it never ends the subscription.
    - [ngZone.run(f)] runs [f] synchronously.  Change detection
      ([ngDoCheck]) and [ngZone.onStable] are events of the framework, which
      may follow a [run] at once or later: they are separate [Event]s.
    - [onStable.pipe(take(1)).subscribe(cb)] registers a one-shot listener.
    - [Promise.resolve().then(f)] appends [f] to the microtask queue, which
      is run only after the current synchronous block has returned. *)

From Stdlib Require Import ZArith List String Ascii Bool Lia DecimalString.
From Stdlib Require DecimalPos DecimalZ.
Import ListNotations.
Local Open Scope Z_scope.

(** ** JavaScript strings and numbers *)

(** [`${Number(offset)}`] for an integer-valued number. *)
Definition Number_toString (n : Z) : string :=
  NilZero.string_of_int (Z.to_int n).

(** The components of a CSS transform list: the pieces between single
    spaces.  [acc] holds the characters of the current piece. *)
Fixpoint split_space_aux (acc : string) (s : string) : list string :=
  match s with
  | EmptyString => [acc]
  | String c rest =>
      if Ascii.eqb c " "%char
      then acc :: split_space_aux EmptyString rest
      else split_space_aux (acc ++ String c EmptyString)%string rest
  end.

Definition transform_components (s : string) : list string :=
  split_space_aux EmptyString s.

Fixpoint no_space (s : string) : bool :=
  match s with
  | EmptyString => true
  | String c rest => negb (Ascii.eqb c " "%char) && no_space rest
  end.

(** ** The injected sanitizer

    [DomSanitizer] is an abstract class of the framework, injected through the
    constructor.  The component calls [bypassSecurityTrustStyle] and compares
    the value it got back with a string ([!=]).  Both are taken as parameters:
    the type of trusted values, the method, and the outcome of JavaScript's
    loose equality between a trusted value and a string. *)
Record DomSanitizer : Type := mkDomSanitizer {
  SafeStyle : Type;
  bypassSecurityTrustStyle : string -> SafeStyle;
  looseEqString : SafeStyle -> string -> bool
}.

(** A sanitizer that hands the string back unchanged (a test double). *)
Definition transparentSanitizer : DomSanitizer :=
  {| SafeStyle := string;
     bypassSecurityTrustStyle := fun s => s;
     looseEqString := String.eqb |}.

(** The framework's own sanitizer ([DomSanitizerImpl] of
    [@angular/platform-browser]): the trusted value is a wrapper object
    holding the string in [changingThisBreaksApplicationSecurity].  Loose
    equality of an object with a string compares the object's [toString()]
    with the string, and the wrapper's [toString()] is a warning text around
    the wrapped string. *)
Record SafeStyleImpl : Type := mkSafeStyleImpl {
  changingThisBreaksApplicationSecurity : string
}.

Definition SafeValueImpl_toString (v : SafeStyleImpl) : string :=
  ("SafeValue must use [property]=binding: "
    ++ changingThisBreaksApplicationSecurity v
    ++ " (see http://g.co/ng/security#xss)")%string.

Definition angularSanitizer : DomSanitizer :=
  {| SafeStyle := SafeStyleImpl;
     bypassSecurityTrustStyle := mkSafeStyleImpl;
     looseEqString := fun v s => String.eqb (SafeValueImpl_toString v) s |}.

(** ** Data model *)

(** [ListRange] of [@angular/cdk/collections]: [{start, end}]. *)
Record ListRange : Type := mkListRange {
  start : Z;
  end_ : Z
}.

(** Checks if the given ranges are equal. *)
Definition rangesEqual (r1 r2 : ListRange) : bool :=
  (start r1 =? start r2) && (end_ r1 =? end_ r2).

Inductive Orientation : Type := Horizontal | Vertical.

(** The second argument of [setRenderedContentOffset]. *)
Inductive Edge : Type := ToStart | ToEnd.

(** An attached [CdkVirtualForOf] is known by its identity. *)
Definition CdkVirtualForOf : Type := nat.

(** An rxjs [Subject], as far as the component uses it. *)
Record Subject : Type := mkSubject {
  isStopped : bool
}.

Definition Subject_complete (s : Subject) : Subject :=
  {| isStopped := true |}.

(** Whether [next] reaches the observers. *)
Definition Subject_delivers (s : Subject) : bool :=
  negb (isStopped s).

(** The part of [elementRef.nativeElement] the component touches. *)
Record Element : Type := mkElement {
  scrollLeft : Z;
  scrollTop : Z;
  clientWidth : Z;
  clientHeight : Z
}.

(** The methods of [VirtualScrollStrategy]. *)
Inductive StrategyCall : Type :=
| StrategyAttach
| StrategyDetach
| OnContentScrolled
| OnDataLengthChanged
| OnContentRendered.

(** What leaves the component. *)
Inductive Effect : Type :=
| RangeEmitted (r : ListRange)
| DetachedEmitted
| MarkForCheck
| ScrollWrite (o : Orientation) (v : Z)
| Strategy (c : StrategyCall).

(** Jobs the component puts on the microtask queue. *)
Inductive Microtask : Type :=
| InitTask
| ContentRenderedTask.

Inductive Error : Type :=
| AlreadyAttached.

Section Viewport.

Variable sanitizer : DomSanitizer.

(** The fields of the class.  A field declared without an initializer is
    [undefined] until assigned; [undefined] and [null] are both [None]. *)
Record Viewport : Type := mkViewport {
  orientation : Orientation;
  _totalContentSize : Z;
  _renderedContentTransform : option (SafeStyle sanitizer);
  _renderedRange : ListRange;
  _dataLength : Z;
  _viewportSize : Z;
  _pendingScrollOffset : option Z;
  _forOf : option CdkVirtualForOf;
  _detachedSubject : Subject;
  _renderedRangeSubject : Subject
}.

Record World : Type := mkWorld {
  vp : Viewport;
  nativeElement : Element;
  (** live subscriptions to [forOf.dataStream] made by [attach] *)
  dataSubscriptions : list CdkVirtualForOf;
  (** live subscriptions to the sampled scroll events *)
  scrollSubscriptions : nat;
  (** one-shot listeners waiting on [ngZone.onStable] *)
  onStableOnce : nat;
  microtasks : list Microtask;
  trace : list Effect
}.

Inductive Result : Type :=
| Ok (w : World)
| Throw (e : Error) (w : World).

Definition world_of (r : Result) : World :=
  match r with
  | Ok w => w
  | Throw _ w => w
  end.

(** The component after construction. *)
Definition newViewport (o : Orientation) : Viewport :=
  {| orientation := o;
     _totalContentSize := 0;
     _renderedContentTransform := None;
     _renderedRange := {| start := 0; end_ := 0 |};
     _dataLength := 0;
     _viewportSize := 0;
     _pendingScrollOffset := None;
     _forOf := None;
     _detachedSubject := {| isStopped := false |};
     _renderedRangeSubject := {| isStopped := false |} |}.

Definition newWorld (o : Orientation) (el : Element) : World :=
  {| vp := newViewport o;
     nativeElement := el;
     dataSubscriptions := [];
     scrollSubscriptions := 0;
     onStableOnce := 0;
     microtasks := [];
     trace := [] |}.

(** *** Field updates *)

Definition with_vp (v : Viewport) (w : World) : World :=
  {| vp := v;
     nativeElement := nativeElement w;
     dataSubscriptions := dataSubscriptions w;
     scrollSubscriptions := scrollSubscriptions w;
     onStableOnce := onStableOnce w;
     microtasks := microtasks w;
     trace := trace w |}.

Definition with_nativeElement (el : Element) (w : World) : World :=
  {| vp := vp w;
     nativeElement := el;
     dataSubscriptions := dataSubscriptions w;
     scrollSubscriptions := scrollSubscriptions w;
     onStableOnce := onStableOnce w;
     microtasks := microtasks w;
     trace := trace w |}.

Definition with_dataSubscriptions (l : list CdkVirtualForOf) (w : World) : World :=
  {| vp := vp w;
     nativeElement := nativeElement w;
     dataSubscriptions := l;
     scrollSubscriptions := scrollSubscriptions w;
     onStableOnce := onStableOnce w;
     microtasks := microtasks w;
     trace := trace w |}.

Definition with_scrollSubscriptions (n : nat) (w : World) : World :=
  {| vp := vp w;
     nativeElement := nativeElement w;
     dataSubscriptions := dataSubscriptions w;
     scrollSubscriptions := n;
     onStableOnce := onStableOnce w;
     microtasks := microtasks w;
     trace := trace w |}.

Definition with_onStableOnce (n : nat) (w : World) : World :=
  {| vp := vp w;
     nativeElement := nativeElement w;
     dataSubscriptions := dataSubscriptions w;
     scrollSubscriptions := scrollSubscriptions w;
     onStableOnce := n;
     microtasks := microtasks w;
     trace := trace w |}.

Definition with_microtasks (q : list Microtask) (w : World) : World :=
  {| vp := vp w;
     nativeElement := nativeElement w;
     dataSubscriptions := dataSubscriptions w;
     scrollSubscriptions := scrollSubscriptions w;
     onStableOnce := onStableOnce w;
     microtasks := q;
     trace := trace w |}.

(** Appends one effect to the trace. *)
Definition emit (e : Effect) (w : World) : World :=
  {| vp := vp w;
     nativeElement := nativeElement w;
     dataSubscriptions := dataSubscriptions w;
     scrollSubscriptions := scrollSubscriptions w;
     onStableOnce := onStableOnce w;
     microtasks := microtasks w;
     trace := trace w ++ [e] |}.

Definition set_totalContentSize (size : Z) (v : Viewport) : Viewport :=
  {| orientation := orientation v;
     _totalContentSize := size;
     _renderedContentTransform := _renderedContentTransform v;
     _renderedRange := _renderedRange v;
     _dataLength := _dataLength v;
     _viewportSize := _viewportSize v;
     _pendingScrollOffset := _pendingScrollOffset v;
     _forOf := _forOf v;
     _detachedSubject := _detachedSubject v;
     _renderedRangeSubject := _renderedRangeSubject v |}.

Definition set_renderedContentTransform (t : option (SafeStyle sanitizer))
    (v : Viewport) : Viewport :=
  {| orientation := orientation v;
     _totalContentSize := _totalContentSize v;
     _renderedContentTransform := t;
     _renderedRange := _renderedRange v;
     _dataLength := _dataLength v;
     _viewportSize := _viewportSize v;
     _pendingScrollOffset := _pendingScrollOffset v;
     _forOf := _forOf v;
     _detachedSubject := _detachedSubject v;
     _renderedRangeSubject := _renderedRangeSubject v |}.

Definition set_renderedRange (r : ListRange) (v : Viewport) : Viewport :=
  {| orientation := orientation v;
     _totalContentSize := _totalContentSize v;
     _renderedContentTransform := _renderedContentTransform v;
     _renderedRange := r;
     _dataLength := _dataLength v;
     _viewportSize := _viewportSize v;
     _pendingScrollOffset := _pendingScrollOffset v;
     _forOf := _forOf v;
     _detachedSubject := _detachedSubject v;
     _renderedRangeSubject := _renderedRangeSubject v |}.

Definition set_dataLength (n : Z) (v : Viewport) : Viewport :=
  {| orientation := orientation v;
     _totalContentSize := _totalContentSize v;
     _renderedContentTransform := _renderedContentTransform v;
     _renderedRange := _renderedRange v;
     _dataLength := n;
     _viewportSize := _viewportSize v;
     _pendingScrollOffset := _pendingScrollOffset v;
     _forOf := _forOf v;
     _detachedSubject := _detachedSubject v;
     _renderedRangeSubject := _renderedRangeSubject v |}.

Definition set_viewportSize (n : Z) (v : Viewport) : Viewport :=
  {| orientation := orientation v;
     _totalContentSize := _totalContentSize v;
     _renderedContentTransform := _renderedContentTransform v;
     _renderedRange := _renderedRange v;
     _dataLength := _dataLength v;
     _viewportSize := n;
     _pendingScrollOffset := _pendingScrollOffset v;
     _forOf := _forOf v;
     _detachedSubject := _detachedSubject v;
     _renderedRangeSubject := _renderedRangeSubject v |}.

Definition set_pendingScrollOffset (p : option Z) (v : Viewport) : Viewport :=
  {| orientation := orientation v;
     _totalContentSize := _totalContentSize v;
     _renderedContentTransform := _renderedContentTransform v;
     _renderedRange := _renderedRange v;
     _dataLength := _dataLength v;
     _viewportSize := _viewportSize v;
     _pendingScrollOffset := p;
     _forOf := _forOf v;
     _detachedSubject := _detachedSubject v;
     _renderedRangeSubject := _renderedRangeSubject v |}.

Definition set_forOf (f : option CdkVirtualForOf) (v : Viewport) : Viewport :=
  {| orientation := orientation v;
     _totalContentSize := _totalContentSize v;
     _renderedContentTransform := _renderedContentTransform v;
     _renderedRange := _renderedRange v;
     _dataLength := _dataLength v;
     _viewportSize := _viewportSize v;
     _pendingScrollOffset := _pendingScrollOffset v;
     _forOf := f;
     _detachedSubject := _detachedSubject v;
     _renderedRangeSubject := _renderedRangeSubject v |}.

Definition complete_subjects (v : Viewport) : Viewport :=
  {| orientation := orientation v;
     _totalContentSize := _totalContentSize v;
     _renderedContentTransform := _renderedContentTransform v;
     _renderedRange := _renderedRange v;
     _dataLength := _dataLength v;
     _viewportSize := _viewportSize v;
     _pendingScrollOffset := _pendingScrollOffset v;
     _forOf := _forOf v;
     _detachedSubject := Subject_complete (_detachedSubject v);
     _renderedRangeSubject := Subject_complete (_renderedRangeSubject v) |}.

(** ** The methods of the class *)

(** [ngOnInit]: the body is deferred with [Promise.resolve().then]. *)
Definition ngOnInit (w : World) : World :=
  with_microtasks (microtasks w ++ [InitTask]) w.

(** The deferred body of [ngOnInit]: measures the viewport, attaches the
    strategy and subscribes to the sampled scroll events.  The subscription
    is kept in no field and piped through no [takeUntil]. *)
Definition ngOnInit_deferred (w : World) : World :=
  let size := match orientation (vp w) with
              | Horizontal => clientWidth (nativeElement w)
              | Vertical => clientHeight (nativeElement w)
              end in
  let w1 := with_vp (set_viewportSize size (vp w)) w in
  let w2 := emit (Strategy StrategyAttach) w1 in
  with_scrollSubscriptions (S (scrollSubscriptions w2)) w2.

(** [ngDoCheck]: applies the pending scroll offset, if there is one. *)
Definition ngDoCheck (w : World) : World :=
  match _pendingScrollOffset (vp w) with
  | Some offset =>
      match orientation (vp w) with
      | Horizontal =>
          emit (ScrollWrite Horizontal offset)
            (with_nativeElement
               {| scrollLeft := offset;
                  scrollTop := scrollTop (nativeElement w);
                  clientWidth := clientWidth (nativeElement w);
                  clientHeight := clientHeight (nativeElement w) |} w)
      | Vertical =>
          emit (ScrollWrite Vertical offset)
            (with_nativeElement
               {| scrollLeft := scrollLeft (nativeElement w);
                  scrollTop := offset;
                  clientWidth := clientWidth (nativeElement w);
                  clientHeight := clientHeight (nativeElement w) |} w)
      end
  | None => w
  end.

(** [detach]: clears [_forOf], then [_detachedSubject.next()].  When the
    subject delivers, every [takeUntil(_detachedSubject)] subscription
    ends. *)
Definition detach (w : World) : World :=
  let w1 := with_vp (set_forOf None (vp w)) w in
  if Subject_delivers (_detachedSubject (vp w1))
  then with_dataSubscriptions [] (emit DetachedEmitted w1)
  else w1.

(** [ngOnDestroy]: detaches, detaches the strategy, completes both
    subjects. *)
Definition ngOnDestroy (w : World) : World :=
  let w1 := detach w in
  let w2 := emit (Strategy StrategyDetach) w1 in
  with_vp (complete_subjects (vp w2)) w2.

(** [attach]: throws when [_forOf] is set; otherwise stores the
    [CdkVirtualForOf] and subscribes to its [dataStream]. *)
Definition attach (forOf : CdkVirtualForOf) (w : World) : Result :=
  match _forOf (vp w) with
  | Some _ => Throw AlreadyAttached w
  | None =>
      let w1 := with_vp (set_forOf (Some forOf) (vp w)) w in
      Ok (with_dataSubscriptions (dataSubscriptions w1 ++ [forOf]) w1)
  end.

(** The callback [attach] subscribes: [data => { const len = data.length;
    if (len != this._dataLength) { ... } }].  Only the length of the emitted
    array is read. *)
Definition onDataStream (data : list nat) (w : World) : World :=
  let len := Z.of_nat (List.length data) in
  if len =? _dataLength (vp w)
  then w
  else emit (Strategy OnDataLengthChanged)
         (with_vp (set_dataLength len (vp w)) w).

Definition getDataLength (w : World) : Z := _dataLength (vp w).

Definition getViewportSize (w : World) : Z := _viewportSize (vp w).

Definition getRenderedRange (w : World) : ListRange := _renderedRange (vp w).

(** [setTotalContentSize] *)
Definition setTotalContentSize (size : Z) (w : World) : World :=
  if _totalContentSize (vp w) =? size
  then w
  else emit MarkForCheck (with_vp (set_totalContentSize size (vp w)) w).

(** [setRenderedRange]: the assignment, [_renderedRangeSubject.next],
    [markForCheck], and a one-shot [onStable] listener whose body queues
    [onContentRendered] as a microtask. *)
Definition setRenderedRange (range : ListRange) (w : World) : World :=
  if rangesEqual (_renderedRange (vp w)) range
  then w
  else
    let w1 := with_vp (set_renderedRange range (vp w)) w in
    let w2 := if Subject_delivers (_renderedRangeSubject (vp w1))
              then emit (RangeEmitted range) w1
              else w1 in
    let w3 := emit MarkForCheck w2 in
    with_onStableOnce (S (onStableOnce w3)) w3.

(** The local [transform] of [setRenderedContentOffset]. *)
Definition contentTransform (o : Orientation) (offset : Z) (to : Edge) : string :=
  let axis := match o with Horizontal => "X"%string | Vertical => "Y"%string end in
  let transform := ("translate" ++ axis ++ "(" ++ Number_toString offset ++ "px)")%string in
  match to with
  | ToEnd => (transform ++ " translate" ++ axis ++ "(-100%)")%string
  | ToStart => transform
  end.

(** [this._renderedContentTransform != transform] *)
Definition transformDiffers (stored : option (SafeStyle sanitizer))
    (transform : string) : bool :=
  match stored with
  | None => true
  | Some v => negb (looseEqString sanitizer v transform)
  end.

(** [setRenderedContentOffset] *)
Definition setRenderedContentOffset (offset : Z) (to : Edge) (w : World) : World :=
  let transform := contentTransform (orientation (vp w)) offset to in
  if transformDiffers (_renderedContentTransform (vp w)) transform
  then emit MarkForCheck
         (with_vp (set_renderedContentTransform
                     (Some (bypassSecurityTrustStyle sanitizer transform))
                     (vp w)) w)
  else w.

(** [setScrollOffset] *)
Definition setScrollOffset (offset : Z) (w : World) : World :=
  emit MarkForCheck (with_vp (set_pendingScrollOffset (Some offset) (vp w)) w).

(** [measureScrollOffset] *)
Definition measureScrollOffset (w : World) : Z :=
  match orientation (vp w) with
  | Horizontal => scrollLeft (nativeElement w)
  | Vertical => scrollTop (nativeElement w)
  end.

(** ** The environment's moves *)

(** [forOf.dataStream] emits [data]: every live subscription to that stream
    runs its callback. *)
Definition dataStream_next (forOf : CdkVirtualForOf) (data : list nat)
    (w : World) : World :=
  fold_left (fun acc sub => if Nat.eqb sub forOf then onDataStream data acc else acc)
            (dataSubscriptions w) w.

(** A sampled scroll event: every live scroll subscription calls
    [onContentScrolled]. *)
Definition scrollSampled (w : World) : World :=
  Nat.iter (scrollSubscriptions w) (emit (Strategy OnContentScrolled)) w.

(** [ngZone.onStable] emits: each one-shot listener runs once, queueing its
    [Promise.resolve().then(() => onContentRendered())], and is gone. *)
Definition zoneStable (w : World) : World :=
  with_onStableOnce 0
    (with_microtasks (microtasks w ++ repeat ContentRenderedTask (onStableOnce w)) w).

Definition runMicrotask (t : Microtask) (w : World) : World :=
  match t with
  | InitTask => ngOnInit_deferred w
  | ContentRenderedTask => emit (Strategy OnContentRendered) w
  end.

(** The microtask queue is run to its end, in order. *)
Definition microtaskCheckpoint (w : World) : World :=
  fold_left (fun acc t => runMicrotask t acc) (microtasks w) (with_microtasks [] w).

(** Everything that can happen to a viewport. *)
Inductive Event : Type :=
| NgOnInit
| NgDoCheck
| NgOnDestroy
| Attach (forOf : CdkVirtualForOf)
| Detach
| SetTotalContentSize (size : Z)
| SetRenderedRange (range : ListRange)
| SetRenderedContentOffset (offset : Z) (to : Edge)
| SetScrollOffset (offset : Z)
| DataStreamNext (forOf : CdkVirtualForOf) (data : list nat)
| ScrollSampled
| ZoneStable
| MicrotaskCheckpoint.

(** A method call and its outcome; only [attach] can throw. *)
Definition invoke (e : Event) (w : World) : Result :=
  match e with
  | NgOnInit => Ok (ngOnInit w)
  | NgDoCheck => Ok (ngDoCheck w)
  | NgOnDestroy => Ok (ngOnDestroy w)
  | Attach forOf => attach forOf w
  | Detach => Ok (detach w)
  | SetTotalContentSize size => Ok (setTotalContentSize size w)
  | SetRenderedRange range => Ok (setRenderedRange range w)
  | SetRenderedContentOffset offset to => Ok (setRenderedContentOffset offset to w)
  | SetScrollOffset offset => Ok (setScrollOffset offset w)
  | DataStreamNext forOf data => Ok (dataStream_next forOf data w)
  | ScrollSampled => Ok (scrollSampled w)
  | ZoneStable => Ok (zoneStable w)
  | MicrotaskCheckpoint => Ok (microtaskCheckpoint w)
  end.

(** One event; an exception leaves the world as it was at the throw. *)
Definition step (w : World) (e : Event) : World :=
  world_of (invoke e w).

Definition run (es : list Event) (w : World) : World :=
  fold_left step es w.

(** ** Reading traces *)

Definition is_contentRendered (e : Effect) : bool :=
  match e with Strategy OnContentRendered => true | _ => false end.

Definition is_dataLengthChanged (e : Effect) : bool :=
  match e with Strategy OnDataLengthChanged => true | _ => false end.

Definition is_strategyCall (e : Effect) : bool :=
  match e with Strategy _ => true | _ => false end.

(** The ranges published on [renderedRangeStream], in order. *)
Fixpoint rangeEmissions (t : list Effect) : list ListRange :=
  match t with
  | [] => []
  | RangeEmitted r :: t' => r :: rangeEmissions t'
  | _ :: t' => rangeEmissions t'
  end.

(** The writes to [scrollLeft]/[scrollTop], in order. *)
Fixpoint scrollWrites (t : list Effect) : list (Orientation * Z) :=
  match t with
  | [] => []
  | ScrollWrite o v :: t' => (o, v) :: scrollWrites t'
  | _ :: t' => scrollWrites t'
  end.

Definition countContentRendered (t : list Effect) : nat :=
  List.length (filter is_contentRendered t).

Definition countDataLengthChanged (t : list Effect) : nat :=
  List.length (filter is_dataLengthChanged t).

Definition strategyCalls (t : list Effect) : list Effect :=
  filter is_strategyCall t.

(** The translation along [axis] by [offset] pixels, as written. *)
Definition translatePx (axis : string) (offset : Z) : string :=
  ("translate" ++ axis ++ "(" ++ Number_toString offset ++ "px)")%string.

(** ** Cycles *)

(** How often a stored length changes under a sequence of emitted lengths. *)
Fixpoint countChanges (cur : Z) (lens : list Z) : nat :=
  match lens with
  | [] => 0%nat
  | len :: rest =>
      ((if Z.eqb len cur then 0 else 1) + countChanges len rest)%nat
  end.

Definition lengthOf (data : list nat) : Z := Z.of_nat (List.length data).

(** The value [_pendingScrollOffset] holds after [es], from [cur]. *)
Fixpoint lastScrollOffset (es : list Event) (cur : option Z) : option Z :=
  match es with
  | [] => cur
  | SetScrollOffset offset :: rest => lastScrollOffset rest (Some offset)
  | _ :: rest => lastScrollOffset rest cur
  end.

(** The four batched setters. *)
Definition isSetter (e : Event) : bool :=
  match e with
  | SetTotalContentSize _ | SetRenderedRange _
  | SetRenderedContentOffset _ _ | SetScrollOffset _ => true
  | _ => false
  end.

(** What may follow [setRenderedRange] before the microtask queue is run:
    the other setters, and the change detection and [onStable] passes the
    zone performs when a [run] returns. *)
Definition isFollowUp (e : Event) : bool :=
  match e with
  | SetTotalContentSize _ | SetRenderedContentOffset _ _ | SetScrollOffset _
  | NgDoCheck | ZoneStable => true
  | _ => false
  end.

Definition isAttach (e : Event) : bool :=
  match e with
  | Attach _ => true
  | _ => false
  end.

(** How many [onContentRendered] calls are on their way: listeners waiting
    on [onStable] plus jobs in the queue. *)
Definition renderedPending (w : World) : nat :=
  (onStableOnce w + List.length (microtasks w))%nat.

(** The three things a data-stream callback could touch. *)
Definition lengthState (w : World) : list CdkVirtualForOf * nat * Z :=
  (dataSubscriptions w, countDataLengthChanged (trace w), _dataLength (vp w)).

(** No job queued and no listener waiting on [onStable]. *)
Definition settled (w : World) : Prop :=
  onStableOnce w = 0%nat /\ microtasks w = [].

(** ** Measuring a range *)

(** [CdkVirtualForOf.measureRangeSize(range, orientation)] lives in
    [virtual-for-of.ts]; it is taken as a parameter.  [None] stands for a
    call that throws (the range includes items that are not rendered). *)
Variable forOf_measureRangeSize :
  CdkVirtualForOf -> ListRange -> Orientation -> option Z.

(** [measureRangeSize]: 0 without an attached [CdkVirtualForOf], otherwise
    whatever the attached one answers for this orientation. *)
Definition measureRangeSize (range : ListRange) (w : World) : option Z :=
  match _forOf (vp w) with
  | None => Some 0
  | Some forOf => forOf_measureRangeSize forOf range (orientation (vp w))
  end.

(** ** Histories *)

(** The range [_renderedRange] holds after [es], from [cur]. *)
Fixpoint lastRenderedRange (es : list Event) (cur : ListRange) : ListRange :=
  match es with
  | [] => cur
  | SetRenderedRange range :: rest => lastRenderedRange rest range
  | _ :: rest => lastRenderedRange rest cur
  end.

(** The size [_totalContentSize] holds after [es], from [cur]. *)
Fixpoint lastTotalContentSize (es : list Event) (cur : Z) : Z :=
  match es with
  | [] => cur
  | SetTotalContentSize size :: rest => lastTotalContentSize rest size
  | _ :: rest => lastTotalContentSize rest cur
  end.

(** How many [setRenderedRange] calls of [es] pass a range other than the
    one held at the time of the call. *)
Fixpoint countRangeChanges (es : list Event) (cur : ListRange) : nat :=
  match es with
  | [] => 0%nat
  | SetRenderedRange range :: rest =>
      ((if rangesEqual cur range then 0 else 1)
       + countRangeChanges rest range)%nat
  | _ :: rest => countRangeChanges rest cur
  end.

(** What [_forOf] holds after [es], from [cur]. *)
Fixpoint attachmentAfter (es : list Event) (cur : option CdkVirtualForOf)
    : option CdkVirtualForOf :=
  match es with
  | [] => cur
  | Attach forOf :: rest =>
      attachmentAfter rest (match cur with Some _ => cur | None => Some forOf end)
  | Detach :: rest => attachmentAfter rest None
  | NgOnDestroy :: rest => attachmentAfter rest None
  | _ :: rest => attachmentAfter rest cur
  end.

Definition isDestroy (e : Event) : bool :=
  match e with
  | NgOnDestroy => true
  | _ => false
  end.

Definition isDoCheck (e : Event) : bool :=
  match e with
  | NgDoCheck => true
  | _ => false
  end.

Definition isDataStreamNext (e : Event) : bool :=
  match e with
  | DataStreamNext _ _ => true
  | _ => false
  end.

(** The methods applications call, and the two passes of the framework that
    run between them. *)
Definition isDirectCall (e : Event) : bool :=
  match e with
  | NgOnInit | NgDoCheck | Attach _ | Detach
  | SetTotalContentSize _ | SetRenderedRange _
  | SetRenderedContentOffset _ _ | SetScrollOffset _ | ZoneStable => true
  | _ => false
  end.

(** No two neighbours of the list are equal ranges. *)
Fixpoint adjacentDistinct (l : list ListRange) : bool :=
  match l with
  | [] => true
  | r1 :: rest =>
      match rest with
      | [] => true
      | r2 :: _ => negb (rangesEqual r1 r2) && adjacentDistinct rest
      end
  end.

Definition initialRange : ListRange := {| start := 0; end_ := 0 |}.

Definition is_rendered_task (t : Microtask) : bool :=
  match t with ContentRenderedTask => true | InitTask => false end.

Definition is_init_task (t : Microtask) : bool :=
  match t with InitTask => true | ContentRenderedTask => false end.

(** The [onContentRendered] calls still to come: listeners waiting on
    [onStable] and jobs already queued. *)
Definition renderedOutstanding (w : World) : nat :=
  (onStableOnce w + List.length (filter is_rendered_task (microtasks w)))%nat.

(** The strategy call a queued job makes. *)
Definition taskEffect (t : Microtask) : Effect :=
  match t with
  | InitTask => Strategy StrategyAttach
  | ContentRenderedTask => Strategy OnContentRendered
  end.

(** The client extent of the element along the orientation. *)
Definition clientExtent (w : World) : Z :=
  match orientation (vp w) with
  | Horizontal => clientWidth (nativeElement w)
  | Vertical => clientHeight (nativeElement w)
  end.

(** The scroll position of the element across the orientation. *)
Definition crossScroll (w : World) : Z :=
  match orientation (vp w) with
  | Horizontal => scrollTop (nativeElement w)
  | Vertical => scrollLeft (nativeElement w)
  end.

Definition is_strategyAttach (e : Effect) : bool :=
  match e with Strategy StrategyAttach => true | _ => false end.

Definition is_contentScrolled (e : Effect) : bool :=
  match e with Strategy OnContentScrolled => true | _ => false end.

Definition is_detachedEmitted (e : Effect) : bool :=
  match e with DetachedEmitted => true | _ => false end.

Definition countStrategyAttach (t : list Effect) : nat :=
  List.length (filter is_strategyAttach t).

Definition countContentScrolled (t : list Effect) : nat :=
  List.length (filter is_contentScrolled t).

Definition countDetachedEmitted (t : list Effect) : nat :=
  List.length (filter is_detachedEmitted t).

(** The [onContentScrolled] calls made before the first
    [scrollStrategy.attach]. *)
Fixpoint scrolledBeforeAttach (t : list Effect) : nat :=
  match t with
  | [] => 0%nat
  | Strategy StrategyAttach :: _ => 0%nat
  | Strategy OnContentScrolled :: t' => S (scrolledBeforeAttach t')
  | _ :: t' => scrolledBeforeAttach t'
  end.

(** The effects one event appends to the trace (see [step_trace]). *)
Definition stepEffects (w : World) (e : Event) : list Effect :=
  match e with
  | NgOnInit | Attach _ | ZoneStable => []
  | NgDoCheck =>
      match _pendingScrollOffset (vp w) with
      | Some offset => [ScrollWrite (orientation (vp w)) offset]
      | None => []
      end
  | NgOnDestroy =>
      (if Subject_delivers (_detachedSubject (vp w))
       then [DetachedEmitted] else [])
      ++ [Strategy StrategyDetach]
  | Detach =>
      if Subject_delivers (_detachedSubject (vp w))
      then [DetachedEmitted] else []
  | SetTotalContentSize size =>
      if _totalContentSize (vp w) =? size then [] else [MarkForCheck]
  | SetRenderedRange range =>
      if rangesEqual (_renderedRange (vp w)) range then []
      else (if Subject_delivers (_renderedRangeSubject (vp w))
            then [RangeEmitted range] else [])
           ++ [MarkForCheck]
  | SetRenderedContentOffset offset to =>
      if transformDiffers (_renderedContentTransform (vp w))
           (contentTransform (orientation (vp w)) offset to)
      then [MarkForCheck] else []
  | SetScrollOffset _ => [MarkForCheck]
  | DataStreamNext forOf data =>
      if existsb (fun sub => Nat.eqb sub forOf) (dataSubscriptions w)
         && negb (lengthOf data =? _dataLength (vp w))
      then [Strategy OnDataLengthChanged] else []
  | ScrollSampled =>
      repeat (Strategy OnContentScrolled) (scrollSubscriptions w)
  | MicrotaskCheckpoint => map taskEffect (microtasks w)
  end.

(** While the range subject delivers, the last published range (or the
    initial one, before any) is the committed one. *)
Definition rangeStreamInvariant (w : World) : Prop :=
  adjacentDistinct (initialRange :: rangeEmissions (trace w)) = true
  /\ (isStopped (_renderedRangeSubject (vp w)) = false ->
      last (rangeEmissions (trace w)) initialRange = _renderedRange (vp w)).

(** The subscriptions a live viewport holds for its attachment. *)
Definition subscriptionsOf (attached : option CdkVirtualForOf)
    : list CdkVirtualForOf :=
  match attached with
  | Some forOf => [forOf]
  | None => []
  end.

(** How many deferred [ngOnInit] bodies an event runs. *)
Definition initsRun (w : World) (e : Event) : nat :=
  match e with
  | MicrotaskCheckpoint => List.length (filter is_init_task (microtasks w))
  | _ => 0%nat
  end.

(** From a new viewport: every scroll subscription was made together with
    a [scrollStrategy.attach], no [onContentScrolled] came before the first
    of them, and the viewport size is the client extent once measured. *)
Definition initInvariant (w : World) : Prop :=
  scrollSubscriptions w = countStrategyAttach (trace w)
  /\ scrolledBeforeAttach (trace w) = 0%nat
  /\ _viewportSize (vp w)
     = (if Nat.eqb (countStrategyAttach (trace w)) 0 then 0 else clientExtent w).

(** [c] does not occur in [s]. *)
Fixpoint lacks (c : ascii) (s : string) : bool :=
  match s with
  | EmptyString => true
  | String c' rest => negb (Ascii.eqb c' c) && lacks c rest
  end.

(** The fixed text before the number in [contentTransform]. *)
Definition transformPrefix (o : Orientation) : string :=
  match o with
  | Horizontal => "translateX("%string
  | Vertical => "translateY("%string
  end.

(** The text after the number and its [p]. *)
Definition transformTail (o : Orientation) (to : Edge) : string :=
  match to, o with
  | ToStart, _ => "x)"%string
  | ToEnd, Horizontal => "x) translateX(-100%)"%string
  | ToEnd, Vertical => "x) translateY(-100%)"%string
  end.

(** ** Sample inputs *)

Definition sampleElement : Element :=
  {| scrollLeft := 0; scrollTop := 0; clientWidth := 300; clientHeight := 500 |}.

Definition sampleWorld : World := newWorld Vertical sampleElement.

(** A viewport with the [CdkVirtualForOf] number 1 attached. *)
Definition attachedWorld : World := world_of (attach 1%nat sampleWorld).

(** A viewport that has run its deferred [ngOnInit], been given a new
    range, and then been detached. *)
Definition detachedWorld : World :=
  run [NgOnInit; MicrotaskCheckpoint;
       SetRenderedRange {| start := 0; end_ := 5 |}; Detach] sampleWorld.

(** A viewport whose deferred [ngOnInit] has run. *)
Definition initialisedWorld : World :=
  run [NgOnInit; MicrotaskCheckpoint] sampleWorld.

(** ** Basic facts *)

Lemma rangesEqual_true_iff (r1 r2 : ListRange) :
  rangesEqual r1 r2 = true <-> r1 = r2.
Proof.
  unfold rangesEqual. rewrite andb_true_iff, !Z.eqb_eq.
  destruct r1 as [s1 e1], r2 as [s2 e2]; simpl. split.
  - intros [-> ->]. reflexivity.
  - intros H. inversion H. split; reflexivity.
Qed.

Lemma rangesEqual_refl (r : ListRange) : rangesEqual r r = true.
Proof. apply rangesEqual_true_iff. reflexivity. Qed.

Lemma setRenderedRange_same (w : World) (r : ListRange) :
  rangesEqual (_renderedRange (vp w)) r = true -> setRenderedRange r w = w.
Proof. intros H. unfold setRenderedRange. rewrite H. reflexivity. Qed.

Lemma setRenderedRange_range (w : World) (r : ListRange) :
  rangesEqual (_renderedRange (vp w)) r = false ->
  _renderedRange (vp (setRenderedRange r w)) = r.
Proof.
  intros H. unfold setRenderedRange. rewrite H.
  destruct (Subject_delivers _); reflexivity.
Qed.

Lemma setRenderedRange_twice (w : World) (r : ListRange) :
  setRenderedRange r (setRenderedRange r w) = setRenderedRange r w.
Proof.
  destruct (rangesEqual (_renderedRange (vp w)) r) eqn:E.
  - rewrite (setRenderedRange_same w r E). apply setRenderedRange_same, E.
  - apply setRenderedRange_same.
    rewrite (setRenderedRange_range w r E). apply rangesEqual_refl.
Qed.

Lemma rangeEmissions_app (t1 t2 : list Effect) :
  rangeEmissions (t1 ++ t2) = rangeEmissions t1 ++ rangeEmissions t2.
Proof.
  induction t1 as [|e t1 IH]; simpl; [reflexivity|].
  destruct e; simpl; rewrite IH; reflexivity.
Qed.

Lemma setRenderedRange_emissions (w : World) (r : ListRange) :
  rangeEmissions (trace (setRenderedRange r w)) =
  rangeEmissions (trace w) ++
    (if rangesEqual (_renderedRange (vp w)) r then []
     else if Subject_delivers (_renderedRangeSubject (vp w)) then [r] else []).
Proof.
  unfold setRenderedRange.
  destruct (rangesEqual (_renderedRange (vp w)) r).
  - rewrite app_nil_r. reflexivity.
  - simpl. destruct (Subject_delivers (_renderedRangeSubject (vp w)));
      simpl; rewrite !rangeEmissions_app; simpl; rewrite ?app_nil_r; reflexivity.
Qed.

Lemma setTotalContentSize_same (w : World) (s : Z) :
  _totalContentSize (vp w) = s -> setTotalContentSize s w = w.
Proof.
  intros H. unfold setTotalContentSize. rewrite H, Z.eqb_refl. reflexivity.
Qed.

Lemma setTotalContentSize_twice (w : World) (s : Z) :
  setTotalContentSize s (setTotalContentSize s w) = setTotalContentSize s w.
Proof.
  apply setTotalContentSize_same. unfold setTotalContentSize.
  destruct (_totalContentSize (vp w) =? s) eqn:E.
  - apply Z.eqb_eq, E.
  - reflexivity.
Qed.

Lemma detach_vp (w : World) : vp (detach w) = set_forOf None (vp w).
Proof. unfold detach. simpl. destruct (Subject_delivers _); reflexivity. Qed.

Lemma detach_forOf (w : World) : _forOf (vp (detach w)) = None.
Proof. rewrite detach_vp. reflexivity. Qed.

Lemma detach_subscriptions (w : World) :
  dataSubscriptions (detach w) =
  if Subject_delivers (_detachedSubject (vp w)) then [] else dataSubscriptions w.
Proof. unfold detach. simpl. destruct (Subject_delivers _); reflexivity. Qed.

Lemma onDataStream_twice (data : list nat) (w : World) :
  onDataStream data (onDataStream data w) = onDataStream data w.
Proof.
  unfold onDataStream at 2.
  destruct (Z.of_nat (List.length data) =? _dataLength (vp w)) eqn:E.
  - unfold onDataStream. rewrite E. reflexivity.
  - unfold onDataStream. simpl. rewrite Z.eqb_refl, E. reflexivity.
Qed.

(** However many subscriptions to a stream are live, one emission runs the
    callback with effect at most once. *)
Lemma dataStream_next_fold (forOf : CdkVirtualForOf) (data : list nat)
    (subs : list CdkVirtualForOf) (acc : World) :
  fold_left (fun a sub => if Nat.eqb sub forOf then onDataStream data a else a)
            subs acc =
  if existsb (fun sub => Nat.eqb sub forOf) subs
  then onDataStream data acc else acc.
Proof.
  revert acc. induction subs as [|sub subs IH]; intros acc; simpl; [reflexivity|].
  rewrite IH. destruct (Nat.eqb sub forOf); simpl.
  - destruct (existsb (fun s => Nat.eqb s forOf) subs);
      [apply onDataStream_twice | reflexivity].
  - reflexivity.
Qed.

Lemma dataStream_next_subscribed (forOf : CdkVirtualForOf) (data : list nat)
    (w : World) :
  In forOf (dataSubscriptions w) ->
  dataStream_next forOf data w = onDataStream data w.
Proof.
  intros H. unfold dataStream_next. rewrite dataStream_next_fold.
  replace (existsb (fun sub => Nat.eqb sub forOf) (dataSubscriptions w))
    with true; [reflexivity|].
  symmetry. apply existsb_exists. exists forOf. split; [exact H|apply Nat.eqb_refl].
Qed.

Lemma dataStream_next_unsubscribed (forOf : CdkVirtualForOf) (data : list nat)
    (w : World) :
  dataSubscriptions w = [] -> dataStream_next forOf data w = w.
Proof. intros H. unfold dataStream_next. rewrite H. reflexivity. Qed.

(** ** Attaching and detaching *)

(** C3.  While a data source is attached, [attach] throws the
    already-attached error and the world is exactly as before; after
    [detach], [attach] succeeds, stores the new source and holds a live
    subscription to its stream: an emission with a new length reaches the
    strategy. *)
Theorem C3_attach_exclusive (w : World) (f g : CdkVirtualForOf) :
  _forOf (vp w) = Some f ->
  attach g w = Throw AlreadyAttached w
  /\ exists w',
       attach g (detach w) = Ok w'
       /\ _forOf (vp w') = Some g
       /\ In g (dataSubscriptions w')
       /\ forall data,
            lengthOf data <> _dataLength (vp w') ->
            trace (dataStream_next g data w')
              = trace w' ++ [Strategy OnDataLengthChanged]
            /\ getDataLength (dataStream_next g data w') = lengthOf data.
Proof.
  intros Hf. split.
  - unfold attach. rewrite Hf. reflexivity.
  - unfold attach. rewrite detach_forOf.
    eexists. split; [reflexivity|]. split; [reflexivity|].
    assert (Hin : In g (dataSubscriptions
                (with_dataSubscriptions
                   (dataSubscriptions (with_vp (set_forOf (Some g) (vp (detach w))) (detach w)) ++ [g])
                   (with_vp (set_forOf (Some g) (vp (detach w))) (detach w))))).
    { simpl. apply in_or_app. right. left. reflexivity. }
    split; [exact Hin|].
    intros data Hlen.
    rewrite (dataStream_next_subscribed g data _ Hin).
    unfold onDataStream, getDataLength. fold (lengthOf data).
    apply Z.eqb_neq in Hlen. rewrite Hlen. simpl. split; reflexivity.
Qed.

(** C9.  [detach] always returns normally and leaves [_forOf] cleared; a
    second [detach] changes neither the component's fields nor the
    subscriptions, any number of further calls keep [_forOf] cleared, and
    after [ngOnDestroy] a [detach] changes nothing at all. *)
Theorem C9_detach_repeatable (w : World) :
  invoke Detach w = Ok (detach w)
  /\ vp (detach w) = set_forOf None (vp w)
  /\ _forOf (vp (detach w)) = None
  /\ vp (detach (detach w)) = vp (detach w)
  /\ dataSubscriptions (detach (detach w)) = dataSubscriptions (detach w)
  /\ (forall n, _forOf (vp (Nat.iter n detach (detach w))) = None)
  /\ _forOf (vp (ngOnDestroy w)) = None
  /\ invoke Detach (ngOnDestroy w) = Ok (ngOnDestroy w).
Proof.
  split; [reflexivity|].
  split; [apply detach_vp|].
  split; [apply detach_forOf|].
  split.
  { rewrite !detach_vp. reflexivity. }
  split.
  { rewrite !detach_subscriptions, detach_vp. simpl.
    destruct (Subject_delivers (_detachedSubject (vp w))); reflexivity. }
  split.
  { intros n. destruct n as [|n]; simpl; apply detach_forOf. }
  split.
  { unfold ngOnDestroy. simpl. apply detach_forOf. }
  simpl. f_equal. unfold detach at 1. simpl.
  unfold ngOnDestroy at 2. unfold with_vp, emit, complete_subjects, set_forOf.
  simpl. rewrite detach_forOf. reflexivity.
Qed.

(** ** Idempotent setters *)

(** C4 (as amended).  [setRenderedRange r] changes nothing when the current
    range equals [r], so a second call with the same [r] changes nothing;
    two such calls publish [r] once when [r] differs from the range held
    before the first call and the range subject still delivers, and
    publish nothing otherwise.  [setTotalContentSize s] changes nothing when
    [s] is the current size. *)
Theorem C4_setters_idempotent (w : World) (r : ListRange) (s : Z) :
  (_renderedRange (vp w) = r -> setRenderedRange r w = w)
  /\ setRenderedRange r (setRenderedRange r w) = setRenderedRange r w
  /\ rangeEmissions (trace (setRenderedRange r (setRenderedRange r w)))
       = rangeEmissions (trace w) ++
         (if rangesEqual (_renderedRange (vp w)) r then []
          else if Subject_delivers (_renderedRangeSubject (vp w)) then [r]
          else [])
  /\ (_totalContentSize (vp w) = s -> setTotalContentSize s w = w)
  /\ setTotalContentSize s (setTotalContentSize s w) = setTotalContentSize s w.
Proof.
  split.
  { intros H. apply setRenderedRange_same, rangesEqual_true_iff, H. }
  split; [apply setRenderedRange_twice|].
  split.
  { rewrite setRenderedRange_twice. apply setRenderedRange_emissions. }
  split; [apply setTotalContentSize_same | apply setTotalContentSize_twice].
Qed.

(** ** Data length *)

Lemma onDataStream_subscriptions (data : list nat) (w : World) :
  dataSubscriptions (onDataStream data w) = dataSubscriptions w.
Proof.
  unfold onDataStream. destruct (_ =? _); reflexivity.
Qed.

Lemma countDataLengthChanged_app (t1 t2 : list Effect) :
  countDataLengthChanged (t1 ++ t2)
  = (countDataLengthChanged t1 + countDataLengthChanged t2)%nat.
Proof.
  unfold countDataLengthChanged. rewrite filter_app, length_app. reflexivity.
Qed.

Lemma onDataStream_effect (data : list nat) (w : World) :
  countDataLengthChanged (trace (onDataStream data w))
    = (countDataLengthChanged (trace w)
       + (if Z.eqb (lengthOf data) (_dataLength (vp w)) then 0 else 1))%nat
  /\ _dataLength (vp (onDataStream data w)) = lengthOf data.
Proof.
  unfold onDataStream. fold (lengthOf data).
  destruct (lengthOf data =? _dataLength (vp w)) eqn:E; simpl.
  - split; [lia | symmetry; apply Z.eqb_eq, E].
  - rewrite countDataLengthChanged_app. split; reflexivity.
Qed.

Lemma last_cons_default {A : Type} (l : list A) :
  forall a d, last (a :: l) d = last l a.
Proof.
  induction l as [|x l IH]; intros a d; [reflexivity|].
  change (last (a :: x :: l) d) with (last (x :: l) d).
  rewrite (IH x d), (IH x a). reflexivity.
Qed.

Lemma dataStream_sequence (f : CdkVirtualForOf) (datas : list (list nat)) :
  forall w,
    In f (dataSubscriptions w) ->
    let w' := fold_left (fun a d => dataStream_next f d a) datas w in
    countDataLengthChanged (trace w')
      = (countDataLengthChanged (trace w)
         + countChanges (_dataLength (vp w)) (map lengthOf datas))%nat
    /\ _dataLength (vp w') = last (map lengthOf datas) (_dataLength (vp w)).
Proof.
  induction datas as [|d datas IH]; intros w Hin; simpl.
  - split; [lia | reflexivity].
  - rewrite (dataStream_next_subscribed f d w Hin).
    destruct (onDataStream_effect d w) as [Hc Hl].
    assert (Hin' : In f (dataSubscriptions (onDataStream d w))).
    { rewrite onDataStream_subscriptions. exact Hin. }
    destruct (IH _ Hin') as [IHc IHl]. rewrite IHc, IHl, Hc, Hl. split.
    + lia.
    + symmetry. apply last_cons_default.
Qed.

(** C5.  With a live subscription to the source's stream: an emission whose
    length equals the stored data length changes nothing; an emission with
    another length stores it and calls [onDataLengthChanged] once; over a
    sequence of emissions the strategy is called once per change of the
    stored length. *)
Theorem C5_length_change_dedup (w : World) (f : CdkVirtualForOf)
    (datas : list (list nat)) :
  In f (dataSubscriptions w) ->
  (forall data,
     (lengthOf data = _dataLength (vp w) -> dataStream_next f data w = w)
     /\ (lengthOf data <> _dataLength (vp w) ->
         trace (dataStream_next f data w)
           = trace w ++ [Strategy OnDataLengthChanged]
         /\ _dataLength (vp (dataStream_next f data w)) = lengthOf data))
  /\ let w' := fold_left (fun a d => dataStream_next f d a) datas w in
     countDataLengthChanged (trace w')
       = (countDataLengthChanged (trace w)
          + countChanges (_dataLength (vp w)) (map lengthOf datas))%nat
     /\ _dataLength (vp w') = last (map lengthOf datas) (_dataLength (vp w)).
Proof.
  intros Hin. split.
  - intros data. rewrite (dataStream_next_subscribed f data w Hin).
    unfold onDataStream. fold (lengthOf data). split; intros H.
    + apply Z.eqb_eq in H. rewrite H. reflexivity.
    + apply Z.eqb_neq in H. rewrite H. split; reflexivity.
  - apply dataStream_sequence, Hin.
Qed.

(** ** Deferred scroll writes *)

Lemma scrollWrites_app (t1 t2 : list Effect) :
  scrollWrites (t1 ++ t2) = scrollWrites t1 ++ scrollWrites t2.
Proof.
  induction t1 as [|e t1 IH]; simpl; [reflexivity|].
  destruct e; simpl; rewrite IH; reflexivity.
Qed.

Lemma fold_left_invariant {A B : Type} (P : A -> Prop) (f : A -> B -> A)
    (l : list B) :
  (forall a b, P a -> P (f a b)) -> forall a, P a -> P (fold_left f l a).
Proof.
  intros Hf. induction l as [|b l IH]; intros a Ha; simpl; [exact Ha|].
  apply IH, Hf, Ha.
Qed.

(** Once a call in [es] has set the offset, the value before [es] is
    irrelevant. *)
Lemma lastScrollOffset_set (es : list Event) (v : Z) :
  lastScrollOffset es None = Some v ->
  forall cur, lastScrollOffset es cur = Some v.
Proof.
  induction es as [|e es IH]; intros H cur; [discriminate|].
  destruct e; simpl in *; try (apply IH, H). exact H.
Qed.

(** What the fields read by [ngDoCheck] are after a job of the queue. *)
Lemma runMicrotask_scroll_state (t : Microtask) (w : World) :
  _pendingScrollOffset (vp (runMicrotask t w)) = _pendingScrollOffset (vp w)
  /\ orientation (vp (runMicrotask t w)) = orientation (vp w).
Proof. destruct t; simpl; split; reflexivity. Qed.

(** Every event but [setScrollOffset] leaves the pending offset alone, and
    no event changes the orientation. *)
Lemma step_scroll_state (w : World) (e : Event) :
  _pendingScrollOffset (vp (step w e))
    = lastScrollOffset [e] (_pendingScrollOffset (vp w))
  /\ orientation (vp (step w e)) = orientation (vp w).
Proof.
  destruct e; unfold step; simpl.
  - split; reflexivity.
  - unfold ngDoCheck.
    destruct (_pendingScrollOffset (vp w)) eqn:Ep;
      [destruct (orientation (vp w)) eqn:Eo|]; simpl; rewrite ?Ep, ?Eo;
      split; reflexivity.
  - unfold ngOnDestroy. simpl. rewrite detach_vp. split; reflexivity.
  - unfold attach. destruct (_forOf (vp w)); simpl; split; reflexivity.
  - rewrite detach_vp. split; reflexivity.
  - unfold setTotalContentSize. destruct (_ =? _); split; reflexivity.
  - unfold setRenderedRange. destruct (rangesEqual _ _); simpl;
      [|destruct (Subject_delivers _)]; split; reflexivity.
  - unfold setRenderedContentOffset. destruct (transformDiffers _ _);
      split; reflexivity.
  - split; reflexivity.
  - unfold dataStream_next. rewrite dataStream_next_fold.
    destruct (existsb _ _); [|split; reflexivity].
    unfold onDataStream. destruct (_ =? _); split; reflexivity.
  - unfold scrollSampled.
    apply (Nat.iter_invariant (scrollSubscriptions w) World
             (emit (Strategy OnContentScrolled))
             (fun a => _pendingScrollOffset (vp a) = _pendingScrollOffset (vp w)
                       /\ orientation (vp a) = orientation (vp w))).
    + intros a Ha. exact Ha.
    + split; reflexivity.
  - split; reflexivity.
  - unfold microtaskCheckpoint.
    apply (fold_left_invariant
             (fun a => _pendingScrollOffset (vp a) = _pendingScrollOffset (vp w)
                       /\ orientation (vp a) = orientation (vp w))).
    + intros a t [Hp Ho].
      destruct (runMicrotask_scroll_state t a) as [Hp' Ho'].
      rewrite Hp', Ho'. split; assumption.
    + split; reflexivity.
Qed.

Lemma run_scroll_state (es : list Event) :
  forall w,
    _pendingScrollOffset (vp (run es w))
      = lastScrollOffset es (_pendingScrollOffset (vp w))
    /\ orientation (vp (run es w)) = orientation (vp w).
Proof.
  induction es as [|e es IH]; intros w; [split; reflexivity|].
  change (run (e :: es) w) with (run es (step w e)).
  destruct (IH (step w e)) as [Hp Ho].
  destruct (step_scroll_state w e) as [Hp' Ho'].
  rewrite Hp, Ho, Hp', Ho'. split; [|reflexivity].
  destruct e; reflexivity.
Qed.

Lemma ngDoCheck_pending (w : World) (v : Z) :
  _pendingScrollOffset (vp w) = Some v ->
  trace (ngDoCheck w) = trace w ++ [ScrollWrite (orientation (vp w)) v]
  /\ measureScrollOffset (ngDoCheck w) = v
  /\ vp (ngDoCheck w) = vp w.
Proof.
  intros H. unfold ngDoCheck, measureScrollOffset. rewrite H.
  destruct (orientation (vp w)) eqn:Eo; simpl; rewrite Eo;
    repeat split; reflexivity.
Qed.

(** A setter writes nothing to the element. *)
Lemma setter_no_write (w : World) (e : Event) :
  isSetter e = true ->
  nativeElement (step w e) = nativeElement w
  /\ scrollWrites (trace (step w e)) = scrollWrites (trace w).
Proof.
  destruct e; simpl; try discriminate; intros _; unfold step; simpl.
  - unfold setTotalContentSize. destruct (_ =? _); simpl; [split; reflexivity|].
    rewrite scrollWrites_app, app_nil_r. split; reflexivity.
  - unfold setRenderedRange. destruct (rangesEqual _ _); simpl;
      [split; reflexivity|].
    destruct (Subject_delivers _); simpl;
      rewrite !scrollWrites_app, !app_nil_r; split; reflexivity.
  - unfold setRenderedContentOffset. destruct (transformDiffers _ _); simpl;
      [|split; reflexivity].
    rewrite scrollWrites_app, app_nil_r. split; reflexivity.
  - rewrite scrollWrites_app, app_nil_r. split; reflexivity.
Qed.

Lemma setters_no_write (es : list Event) :
  forall w,
    forallb isSetter es = true ->
    nativeElement (run es w) = nativeElement w
    /\ scrollWrites (trace (run es w)) = scrollWrites (trace w).
Proof.
  induction es as [|e es IH]; intros w H; [split; reflexivity|].
  simpl in H. apply andb_true_iff in H. destruct H as [He Hes].
  change (run (e :: es) w) with (run es (step w e)).
  destruct (IH (step w e) Hes) as [Hn Hs].
  destruct (setter_no_write w e He) as [Hn' Hs'].
  rewrite Hn, Hs, Hn', Hs'. split; reflexivity.
Qed.

Lemma forallb_firstn {A : Type} (p : A -> bool) (n : nat) :
  forall l, forallb p l = true -> forallb p (firstn n l) = true.
Proof.
  induction n as [|n IH]; intros l H; [reflexivity|].
  destruct l as [|a l]; [reflexivity|].
  simpl in *. apply andb_true_iff in H. destruct H as [Ha Hl].
  rewrite Ha. simpl. apply IH, Hl.
Qed.

(** C2.  In a check cycle made of setter calls, the last [setScrollOffset]
    of which passes [v]: after any number of the calls the element and the
    list of scroll writes are what they were before the cycle; the
    [ngDoCheck] that ends the cycle makes one scroll write, of [v], and the
    element's scroll position is [v]. *)
Theorem C2_single_flush (w : World) (es : list Event) (v : Z) :
  forallb isSetter es = true ->
  lastScrollOffset es None = Some v ->
  (forall n,
     nativeElement (run (firstn n es) w) = nativeElement w
     /\ scrollWrites (trace (run (firstn n es) w)) = scrollWrites (trace w))
  /\ scrollWrites (trace (run es w)) = scrollWrites (trace w)
  /\ scrollWrites (trace (ngDoCheck (run es w)))
       = scrollWrites (trace w) ++ [(orientation (vp w), v)]
  /\ measureScrollOffset (ngDoCheck (run es w)) = v.
Proof.
  intros Hset Hlast.
  assert (Hp : _pendingScrollOffset (vp (run es w)) = Some v).
  { destruct (run_scroll_state es w) as [Hp _]. rewrite Hp.
    apply lastScrollOffset_set, Hlast. }
  destruct (run_scroll_state es w) as [_ Ho].
  destruct (ngDoCheck_pending _ v Hp) as (Ht & Hm & _).
  destruct (setters_no_write es w Hset) as [_ Hs].
  split.
  { intros n. apply setters_no_write, forallb_firstn, Hset. }
  split; [exact Hs|].
  split; [|exact Hm].
  rewrite Ht, scrollWrites_app, Hs, Ho. reflexivity.
Qed.

(** C10.  After [setScrollOffset v], whatever happens next, the pending
    offset is the most recently set value [v'] and is never cleared: an
    [ngDoCheck] at any later point writes [v'] to the element again. *)
Theorem C10_pending_offset_sticky (w : World) (v : Z) (es : list Event) :
  let w1 := run es (setScrollOffset v w) in
  exists v',
    lastScrollOffset es (Some v) = Some v'
    /\ _pendingScrollOffset (vp w1) = Some v'
    /\ trace (ngDoCheck w1) = trace w1 ++ [ScrollWrite (orientation (vp w)) v']
    /\ measureScrollOffset (ngDoCheck w1) = v'
    /\ _pendingScrollOffset (vp (ngDoCheck w1)) = Some v'.
Proof.
  intros w1.
  destruct (run_scroll_state es (setScrollOffset v w)) as [Hp Ho].
  fold w1 in Hp, Ho. simpl in Hp, Ho.
  assert (Hsome : exists v', lastScrollOffset es (Some v) = Some v').
  { clear. generalize v. induction es as [|e es IH]; intros c.
    - exists c. reflexivity.
    - destruct e; simpl; apply IH. }
  destruct Hsome as [v' Hv']. exists v'.
  rewrite Hv' in Hp.
  destruct (ngDoCheck_pending w1 v' Hp) as (Ht & Hm & Hvp).
  rewrite Ho in Ht. rewrite Hvp. repeat split; assumption.
Qed.

(** ** Settle, then notify *)

Lemma countContentRendered_app (t1 t2 : list Effect) :
  countContentRendered (t1 ++ t2)
  = (countContentRendered t1 + countContentRendered t2)%nat.
Proof.
  unfold countContentRendered. rewrite filter_app, length_app. reflexivity.
Qed.

Lemma rendered_other_effect (t : list Effect) (e : Effect) :
  is_contentRendered e = false ->
  countContentRendered (t ++ [e]) = countContentRendered t.
Proof.
  intros H. rewrite countContentRendered_app.
  unfold countContentRendered at 2. simpl. rewrite H. simpl. lia.
Qed.

Lemma all_rendered_tasks (q : list Microtask) :
  Forall (eq ContentRenderedTask) q ->
  q = repeat ContentRenderedTask (List.length q).
Proof.
  induction 1 as [|t q Ht _ IH]; simpl; [reflexivity|].
  rewrite <- Ht, <- IH. reflexivity.
Qed.

Lemma Forall_repeat_rendered (n : nat) :
  Forall (eq ContentRenderedTask) (repeat ContentRenderedTask n).
Proof. induction n; simpl; constructor; auto. Qed.

(** A follow-up step queues no job of another kind, keeps the number of
    [onContentRendered] calls on their way, and makes no such call. *)
Lemma followUp_step (w : World) (e : Event) :
  isFollowUp e = true ->
  Forall (eq ContentRenderedTask) (microtasks w) ->
  Forall (eq ContentRenderedTask) (microtasks (step w e))
  /\ renderedPending (step w e) = renderedPending w
  /\ countContentRendered (trace (step w e)) = countContentRendered (trace w).
Proof.
  destruct e; simpl; try discriminate; intros _ Hq; unfold step; simpl.
  - unfold ngDoCheck.
    destruct (_pendingScrollOffset (vp w));
      [destruct (orientation (vp w))|]; simpl;
      rewrite ?rendered_other_effect by reflexivity;
      repeat split; try assumption; reflexivity.
  - unfold setTotalContentSize. destruct (_ =? _); simpl;
      rewrite ?rendered_other_effect by reflexivity;
      repeat split; try assumption; reflexivity.
  - unfold setRenderedContentOffset. destruct (transformDiffers _ _); simpl;
      rewrite ?rendered_other_effect by reflexivity;
      repeat split; try assumption; reflexivity.
  - rewrite rendered_other_effect by reflexivity.
    repeat split; try assumption; reflexivity.
  - split; [|split; [|reflexivity]].
    + apply Forall_app. split; [exact Hq | apply Forall_repeat_rendered].
    + unfold renderedPending. simpl. rewrite length_app, repeat_length. lia.
Qed.

Lemma followUp_run (es : list Event) :
  forall w,
    forallb isFollowUp es = true ->
    Forall (eq ContentRenderedTask) (microtasks w) ->
    Forall (eq ContentRenderedTask) (microtasks (run es w))
    /\ renderedPending (run es w) = renderedPending w
    /\ countContentRendered (trace (run es w)) = countContentRendered (trace w).
Proof.
  induction es as [|e es IH]; intros w H Hq; [repeat split; assumption|].
  simpl in H. apply andb_true_iff in H. destruct H as [He Hes].
  change (run (e :: es) w) with (run es (step w e)).
  destruct (followUp_step w e He Hq) as (Hq1 & Hp1 & Hc1).
  destruct (IH (step w e) Hes Hq1) as (Hq2 & Hp2 & Hc2).
  rewrite Hp2, Hc2, Hp1, Hc1. repeat split. exact Hq2.
Qed.

(** C1.  From a settled world, [setRenderedRange] with a new range, then
    any follow-up steps of the same cycle: no [onContentRendered] call
    happens while the mutations run; when the zone has become stable and the
    microtask queue has run, [onContentRendered] has been called exactly
    once, as the last effect, with the component's fields as the last
    mutation left them, and the world is settled again. *)
Theorem C1_settle_then_notify (w : World) (r : ListRange) (es : list Event) :
  settled w ->
  rangesEqual (_renderedRange (vp w)) r = false ->
  forallb isFollowUp es = true ->
  let mutated := run es (setRenderedRange r w) in
  let after := microtaskCheckpoint (zoneStable mutated) in
  countContentRendered (trace mutated) = countContentRendered (trace w)
  /\ trace after = trace mutated ++ [Strategy OnContentRendered]
  /\ countContentRendered (trace after) = S (countContentRendered (trace w))
  /\ vp after = vp mutated
  /\ settled after.
Proof.
  intros [Hs Hm] Hr Hes mutated after.
  assert (H0 : Forall (eq ContentRenderedTask) (microtasks (setRenderedRange r w))
               /\ renderedPending (setRenderedRange r w) = 1%nat
               /\ countContentRendered (trace (setRenderedRange r w))
                  = countContentRendered (trace w)).
  { unfold setRenderedRange, renderedPending. rewrite Hr.
    destruct (Subject_delivers _); simpl; rewrite Hs, Hm;
      rewrite !rendered_other_effect by reflexivity;
      repeat split; constructor. }
  destruct H0 as (Hq0 & Hp0 & Hc0).
  destruct (followUp_run es _ Hes Hq0) as (Hq & Hp & Hc). fold mutated in Hq, Hp, Hc.
  rewrite Hp0 in Hp. rewrite Hc0 in Hc.
  assert (Hqueue : microtasks (zoneStable mutated) = [ContentRenderedTask]).
  { simpl.
    assert (HF : Forall (eq ContentRenderedTask)
                   (microtasks mutated
                    ++ repeat ContentRenderedTask (onStableOnce mutated))).
    { apply Forall_app. split; [exact Hq | apply Forall_repeat_rendered]. }
    rewrite (all_rendered_tasks _ HF), length_app, repeat_length.
    unfold renderedPending in Hp.
    replace (List.length (microtasks mutated) + onStableOnce mutated)%nat
      with 1%nat by lia.
    reflexivity. }
  assert (Hafter : after
                   = emit (Strategy OnContentRendered)
                       (with_microtasks [] (zoneStable mutated))).
  { unfold after, microtaskCheckpoint. rewrite Hqueue. reflexivity. }
  split; [exact Hc|].
  rewrite Hafter. simpl.
  split; [reflexivity|].
  split.
  { rewrite countContentRendered_app, Hc.
    unfold countContentRendered at 2. simpl. lia. }
  split; [reflexivity|].
  split; reflexivity.
Qed.

(** ** What [detach] cancels *)

Lemma count_other_effect (t : list Effect) (e : Effect) :
  is_dataLengthChanged e = false ->
  countDataLengthChanged (t ++ [e]) = countDataLengthChanged t.
Proof.
  intros H. rewrite countDataLengthChanged_app.
  unfold countDataLengthChanged at 2. simpl. rewrite H. simpl. lia.
Qed.

Lemma runMicrotask_lengthState (t : Microtask) (w : World) :
  lengthState (runMicrotask t w) = lengthState w.
Proof.
  destruct t; unfold lengthState; simpl;
    rewrite count_other_effect by reflexivity; reflexivity.
Qed.

Lemma detach_lengthState (w : World) :
  dataSubscriptions w = [] ->
  lengthState (detach w) = lengthState w.
Proof.
  intros H. unfold lengthState, detach. simpl.
  destruct (Subject_delivers _); simpl; rewrite ?H;
    rewrite ?count_other_effect by reflexivity; reflexivity.
Qed.

(** With no subscription to a data stream, no event other than [attach]
    creates one, calls [onDataLengthChanged] or changes the stored length. *)
Lemma unsubscribed_step (w : World) (e : Event) :
  isAttach e = false ->
  dataSubscriptions w = [] ->
  lengthState (step w e) = lengthState w.
Proof.
  destruct e; simpl; try discriminate; intros _ Hsub; unfold step; simpl.
  - reflexivity.
  - unfold ngDoCheck, lengthState.
    destruct (_pendingScrollOffset (vp w));
      [destruct (orientation (vp w))|]; simpl;
      rewrite ?count_other_effect by reflexivity; reflexivity.
  - unfold ngOnDestroy. rewrite <- (detach_lengthState w Hsub).
    unfold lengthState. simpl.
    rewrite count_other_effect by reflexivity. reflexivity.
  - apply detach_lengthState, Hsub.
  - unfold setTotalContentSize, lengthState. destruct (_ =? _); simpl;
      rewrite ?count_other_effect by reflexivity; reflexivity.
  - unfold setRenderedRange, lengthState. destruct (rangesEqual _ _); simpl;
      [reflexivity|].
    destruct (Subject_delivers _); simpl;
      rewrite !count_other_effect by reflexivity; reflexivity.
  - unfold setRenderedContentOffset, lengthState.
    destruct (transformDiffers _ _); simpl;
      rewrite ?count_other_effect by reflexivity; reflexivity.
  - unfold lengthState. simpl.
    rewrite count_other_effect by reflexivity. reflexivity.
  - rewrite (dataStream_next_unsubscribed forOf data w Hsub). reflexivity.
  - unfold scrollSampled.
    apply (Nat.iter_invariant (scrollSubscriptions w) World
             (emit (Strategy OnContentScrolled))
             (fun a => lengthState a = lengthState w)); [|reflexivity].
    intros a Ha. rewrite <- Ha. unfold lengthState. simpl.
    rewrite count_other_effect by reflexivity. reflexivity.
  - reflexivity.
  - unfold microtaskCheckpoint.
    apply (fold_left_invariant (fun a => lengthState a = lengthState w));
      [|reflexivity].
    intros a t Ha. rewrite runMicrotask_lengthState. exact Ha.
Qed.

Lemma unsubscribed_run (es : list Event) :
  forall w,
    forallb (fun e => negb (isAttach e)) es = true ->
    dataSubscriptions w = [] ->
    lengthState (run es w) = lengthState w.
Proof.
  induction es as [|e es IH]; intros w H Hsub; [reflexivity|].
  simpl in H. apply andb_true_iff in H. destruct H as [He Hes].
  apply negb_true_iff in He.
  change (run (e :: es) w) with (run es (step w e)).
  pose proof (unsubscribed_step w e He Hsub) as Hstep.
  rewrite IH; [exact Hstep | exact Hes |].
  unfold lengthState in Hstep. injection Hstep as H1 _ _.
  rewrite H1. exact Hsub.
Qed.

(** C6 (as amended).  On a viewport whose detach subject still delivers
    (it has not been destroyed), [detach] ends every data-stream
    subscription at once; from then on, until the next [attach], whatever
    happens, there is no subscription, [onDataLengthChanged] is not called
    and the stored data length does not change. *)
Theorem C6_detach_ends_length_listener (w : World) (es : list Event) :
  Subject_delivers (_detachedSubject (vp w)) = true ->
  forallb (fun e => negb (isAttach e)) es = true ->
  dataSubscriptions (detach w) = []
  /\ dataSubscriptions (run es (detach w)) = []
  /\ countDataLengthChanged (trace (run es (detach w)))
     = countDataLengthChanged (trace w)
  /\ _dataLength (vp (run es (detach w))) = _dataLength (vp w).
Proof.
  intros Hlive Hes.
  assert (Hsub : dataSubscriptions (detach w) = []).
  { rewrite detach_subscriptions, Hlive. reflexivity. }
  pose proof (unsubscribed_run es (detach w) Hes Hsub) as Hrun.
  unfold lengthState in Hrun. injection Hrun as H1 H2 H3.
  split; [exact Hsub|].
  split; [rewrite H1; exact Hsub|].
  split.
  - rewrite H2. unfold detach. simpl. rewrite Hlive. simpl.
    apply count_other_effect. reflexivity.
  - rewrite H3, detach_vp. reflexivity.
Qed.

(** ** The content transform *)

Lemma append_empty_r (s : string) : (s ++ "")%string = s.
Proof. induction s as [|c s IH]; simpl; [|rewrite IH]; reflexivity. Qed.

Lemma append_snoc (acc : string) (c : ascii) (s : string) :
  ((acc ++ String c "") ++ s)%string = (acc ++ String c s)%string.
Proof. induction acc as [|a acc IH]; simpl; [|rewrite IH]; reflexivity. Qed.

Lemma no_space_app (a b : string) :
  no_space (a ++ b) = no_space a && no_space b.
Proof.
  induction a as [|c a IH]; simpl; [reflexivity|].
  rewrite IH, andb_assoc. reflexivity.
Qed.

(** A piece without a space, followed by a space, is one component. *)
Lemma split_space_aux_piece (s : string) :
  forall acc rest,
    no_space s = true ->
    split_space_aux acc (s ++ String " " rest)
    = (acc ++ s)%string :: split_space_aux EmptyString rest.
Proof.
  induction s as [|c s IH]; intros acc rest H; simpl in *.
  - rewrite append_empty_r. reflexivity.
  - apply andb_true_iff in H. destruct H as [Hc Hs].
    apply negb_true_iff in Hc. rewrite Hc.
    rewrite (IH _ rest Hs), append_snoc. reflexivity.
Qed.

(** A string without a space is its own single component. *)
Lemma split_space_aux_last (s : string) :
  forall acc, no_space s = true -> split_space_aux acc s = [(acc ++ s)%string].
Proof.
  induction s as [|c s IH]; intros acc H; simpl in *.
  - rewrite append_empty_r. reflexivity.
  - apply andb_true_iff in H. destruct H as [Hc Hs].
    apply negb_true_iff in Hc. rewrite Hc.
    rewrite (IH _ Hs), append_snoc. reflexivity.
Qed.

Lemma no_space_uint (d : Decimal.uint) :
  no_space (NilEmpty.string_of_uint d) = true.
Proof. induction d; simpl; auto. Qed.

Lemma no_space_Number (n : Z) : no_space (Number_toString n) = true.
Proof.
  unfold Number_toString. destruct n as [|p|p]; simpl; [reflexivity| |];
    destruct (Pos.to_uint p); simpl; try reflexivity; apply no_space_uint.
Qed.

Lemma no_space_translatePx (o : Orientation) (offset : Z) :
  no_space (translatePx (match o with Horizontal => "X" | Vertical => "Y" end)
                        offset) = true.
Proof.
  unfold translatePx. destruct o; simpl;
    rewrite no_space_app, no_space_Number; reflexivity.
Qed.

(** C8.  On a vertical viewport the transform for [to-end] has exactly two
    components, in this order: [translateY(<offset>px)], then
    [translateY(-100%)]; for [to-start] it is the single component
    [translateY(<offset>px)].  On a horizontal viewport the same holds with
    [translateX].  The string is what the method hands to the sanitizer
    and stores, unless the stored value already compares equal to it. *)
Theorem C8_offset_composition (offset : Z) :
  transform_components (contentTransform Vertical offset ToEnd)
    = [translatePx "Y" offset; "translateY(-100%)"%string]
  /\ transform_components (contentTransform Vertical offset ToStart)
    = [translatePx "Y" offset]
  /\ transform_components (contentTransform Horizontal offset ToEnd)
    = [translatePx "X" offset; "translateX(-100%)"%string]
  /\ transform_components (contentTransform Horizontal offset ToStart)
    = [translatePx "X" offset]
  /\ forall (w : World) (to : Edge),
       let transform := contentTransform (orientation (vp w)) offset to in
       _renderedContentTransform (vp (setRenderedContentOffset offset to w))
       = if transformDiffers (_renderedContentTransform (vp w)) transform
         then Some (bypassSecurityTrustStyle sanitizer transform)
         else _renderedContentTransform (vp w).
Proof.
  unfold transform_components.
  split.
  { change (contentTransform Vertical offset ToEnd)
      with (translatePx "Y" offset ++ String " " "translateY(-100%)")%string.
    rewrite split_space_aux_piece by apply (no_space_translatePx Vertical).
    reflexivity. }
  split.
  { change (contentTransform Vertical offset ToStart)
      with (translatePx "Y" offset).
    apply split_space_aux_last, (no_space_translatePx Vertical). }
  split.
  { change (contentTransform Horizontal offset ToEnd)
      with (translatePx "X" offset ++ String " " "translateX(-100%)")%string.
    rewrite split_space_aux_piece by apply (no_space_translatePx Horizontal).
    reflexivity. }
  split.
  { change (contentTransform Horizontal offset ToStart)
      with (translatePx "X" offset).
    apply split_space_aux_last, (no_space_translatePx Horizontal). }
  intros w to. unfold setRenderedContentOffset.
  destruct (transformDiffers _ _); reflexivity.
Qed.

(** ** Repeated offsets *)

(** The guard of [setRenderedContentOffset]: nothing happens when the
    stored value compares equal to the computed string. *)
Lemma setRenderedContentOffset_guarded (w : World) (offset : Z) (to : Edge) :
  transformDiffers (_renderedContentTransform (vp w))
                   (contentTransform (orientation (vp w)) offset to) = false ->
  setRenderedContentOffset offset to w = w.
Proof. intros H. unfold setRenderedContentOffset. rewrite H. reflexivity. Qed.

(** A second call with the same arguments passes the guard again exactly
    when the value the sanitizer returned does not compare equal to the
    string it was made from. *)
Lemma setRenderedContentOffset_twice (w : World) (offset : Z) (to : Edge) :
  let transform := contentTransform (orientation (vp w)) offset to in
  transformDiffers (_renderedContentTransform (vp w)) transform = true ->
  setRenderedContentOffset offset to (setRenderedContentOffset offset to w)
  = if looseEqString sanitizer (bypassSecurityTrustStyle sanitizer transform)
                     transform
    then setRenderedContentOffset offset to w
    else emit MarkForCheck (setRenderedContentOffset offset to w).
Proof.
  intros transform H.
  assert (E : setRenderedContentOffset offset to w
              = emit MarkForCheck
                  (with_vp (set_renderedContentTransform
                              (Some (bypassSecurityTrustStyle sanitizer transform))
                              (vp w)) w)).
  { unfold setRenderedContentOffset. fold transform. rewrite H. reflexivity. }
  rewrite E. unfold setRenderedContentOffset. simpl. fold transform.
  destruct (looseEqString sanitizer _ transform); reflexivity.
Qed.

(** ** The environment's moves, in closed form *)

Lemma dataStream_next_eq (forOf : CdkVirtualForOf) (data : list nat)
    (w : World) :
  dataStream_next forOf data w
  = if existsb (fun sub => Nat.eqb sub forOf) (dataSubscriptions w)
    then onDataStream data w else w.
Proof. unfold dataStream_next. apply dataStream_next_fold. Qed.

Lemma emit_iter_spec (e : Effect) (n : nat) (w : World) :
  let w' := Nat.iter n (emit e) w in
  trace w' = trace w ++ repeat e n
  /\ vp w' = vp w
  /\ nativeElement w' = nativeElement w
  /\ dataSubscriptions w' = dataSubscriptions w
  /\ scrollSubscriptions w' = scrollSubscriptions w
  /\ onStableOnce w' = onStableOnce w
  /\ microtasks w' = microtasks w.
Proof.
  induction n as [|n IH]; simpl.
  - rewrite app_nil_r. repeat split; reflexivity.
  - destruct IH as (Ht & Hv & Hn & Hd & Hs & Ho & Hm).
    rewrite Ht, Hv, Hn, Hd, Hs, Ho, Hm.
    repeat split; try reflexivity.
    rewrite <- app_assoc. f_equal. symmetry. apply (repeat_cons n e).
Qed.

(** A sampled scroll event only appends to the trace. *)
Lemma scrollSampled_spec (w : World) :
  trace (scrollSampled w)
    = trace w ++ repeat (Strategy OnContentScrolled) (scrollSubscriptions w)
  /\ vp (scrollSampled w) = vp w
  /\ nativeElement (scrollSampled w) = nativeElement w
  /\ dataSubscriptions (scrollSampled w) = dataSubscriptions w
  /\ scrollSubscriptions (scrollSampled w) = scrollSubscriptions w
  /\ onStableOnce (scrollSampled w) = onStableOnce w
  /\ microtasks (scrollSampled w) = microtasks w.
Proof.
  apply (emit_iter_spec (Strategy OnContentScrolled) (scrollSubscriptions w) w).
Qed.

(** Running a queue of jobs from [acc]. *)
Lemma runQueue_spec (q : list Microtask) :
  forall acc : World,
    let w' := fold_left (fun a t => runMicrotask t a) q acc in
    trace w' = trace acc ++ map taskEffect q
    /\ vp w' = (if existsb is_init_task q
                then set_viewportSize (clientExtent acc) (vp acc)
                else vp acc)
    /\ nativeElement w' = nativeElement acc
    /\ dataSubscriptions w' = dataSubscriptions acc
    /\ scrollSubscriptions w'
       = (scrollSubscriptions acc + List.length (filter is_init_task q))%nat
    /\ onStableOnce w' = onStableOnce acc
    /\ microtasks w' = microtasks acc.
Proof.
  induction q as [|t q IH]; intros acc; simpl.
  - rewrite app_nil_r, Nat.add_0_r. repeat split; reflexivity.
  - destruct (IH (runMicrotask t acc)) as (Ht & Hv & Hn & Hd & Hs & Ho & Hm).
    rewrite Ht, Hv, Hn, Hd, Hs, Ho, Hm. clear.
    destruct t; simpl.
    + rewrite <- app_assoc. simpl.
      repeat split; try reflexivity; try lia.
      unfold clientExtent. simpl.
      destruct (existsb is_init_task q); reflexivity.
    + rewrite <- app_assoc. simpl. repeat split; reflexivity.
Qed.

Lemma microtaskCheckpoint_spec (w : World) :
  trace (microtaskCheckpoint w) = trace w ++ map taskEffect (microtasks w)
  /\ vp (microtaskCheckpoint w)
     = (if existsb is_init_task (microtasks w)
        then set_viewportSize (clientExtent w) (vp w)
        else vp w)
  /\ nativeElement (microtaskCheckpoint w) = nativeElement w
  /\ dataSubscriptions (microtaskCheckpoint w) = dataSubscriptions w
  /\ scrollSubscriptions (microtaskCheckpoint w)
     = (scrollSubscriptions w
        + List.length (filter is_init_task (microtasks w)))%nat
  /\ onStableOnce (microtaskCheckpoint w) = onStableOnce w
  /\ microtasks (microtaskCheckpoint w) = [].
Proof.
  unfold microtaskCheckpoint.
  apply (runQueue_spec (microtasks w) (with_microtasks [] w)).
Qed.

(** ** One event, field by field *)

Ltac split_cases :=
  repeat match goal with
  | |- context [if ?c then _ else _] => destruct c eqn:?
  | |- context [match ?x with Some _ => _ | None => _ end] => destruct x eqn:?
  | |- context [match ?x with Horizontal => _ | Vertical => _ end] =>
      destruct x eqn:?
  end.

Ltac open_step :=
  unfold step, invoke, world_of;
  unfold ngOnInit, ngDoCheck, ngOnDestroy, attach, detach,
    setTotalContentSize, setRenderedRange, setRenderedContentOffset,
    setScrollOffset, zoneStable, onDataStream.

(** Every event only appends to the trace. *)
Lemma step_trace (w : World) (e : Event) :
  trace (step w e) = trace w ++ stepEffects w e.
Proof.
  destruct e; unfold stepEffects.
  - open_step. simpl. rewrite app_nil_r. reflexivity.
  - open_step. split_cases; simpl; rewrite ?app_nil_r; congruence.
  - open_step. simpl. split_cases; simpl; rewrite <- ?app_assoc; reflexivity.
  - open_step. split_cases; simpl; rewrite app_nil_r; reflexivity.
  - open_step. simpl. split_cases; simpl; rewrite ?app_nil_r; reflexivity.
  - open_step. split_cases; simpl; rewrite ?app_nil_r; reflexivity.
  - open_step. simpl. split_cases; simpl;
      rewrite <- ?app_assoc, ?app_nil_r; reflexivity.
  - open_step. split_cases; simpl; rewrite ?app_nil_r; reflexivity.
  - reflexivity.
  - unfold step, invoke, world_of. rewrite dataStream_next_eq.
    unfold onDataStream. fold (lengthOf data).
    destruct (existsb (fun sub => Nat.eqb sub forOf) (dataSubscriptions w));
      simpl; [|rewrite app_nil_r; reflexivity].
    destruct (lengthOf data =? _dataLength (vp w)); simpl;
      rewrite ?app_nil_r; reflexivity.
  - apply (proj1 (scrollSampled_spec w)).
  - open_step. simpl. rewrite app_nil_r. reflexivity.
  - apply (proj1 (microtaskCheckpoint_spec w)).
Qed.

Lemma run_cons (e : Event) (es : list Event) (w : World) :
  run (e :: es) w = run es (step w e).
Proof. reflexivity. Qed.

Lemma run_snoc (es : list Event) (e : Event) (w : World) :
  run (es ++ [e]) w = step (run es w) e.
Proof. unfold run. rewrite fold_left_app. reflexivity. Qed.

Ltac use_spec H :=
  let Ht := fresh "Ht" in
  let Hv := fresh "Hv" in
  let Hn := fresh "Hn" in
  let Hd := fresh "Hd" in
  let Hs := fresh "Hs" in
  let Ho := fresh "Ho" in
  let Hm := fresh "Hm" in
  destruct H as (Ht & Hv & Hn & Hd & Hs & Ho & Hm);
  rewrite ?Ht, ?Hv, ?Hn, ?Hd, ?Hs, ?Ho, ?Hm;
  clear Ht Hv Hn Hd Hs Ho Hm.

(** Case analysis on one event, with the environment's moves replaced by
    their closed forms. *)
Ltac step_analysis e :=
  destruct e; unfold step, invoke, world_of;
  match goal with
  | |- context [scrollSampled ?x] => use_spec (scrollSampled_spec x)
  | |- context [microtaskCheckpoint ?x] => use_spec (microtaskCheckpoint_spec x)
  | |- context [dataStream_next ?f ?d ?x] => rewrite (dataStream_next_eq f d x)
  | _ => idtac
  end;
  unfold ngOnInit, ngDoCheck, ngOnDestroy, attach, detach,
    setTotalContentSize, setRenderedRange, setRenderedContentOffset,
    setScrollOffset, zoneStable, onDataStream;
  simpl.

(** The component's fields after one event. *)
Lemma step_fields (w : World) (e : Event) :
  _renderedRange (vp (step w e)) = lastRenderedRange [e] (_renderedRange (vp w))
  /\ _totalContentSize (vp (step w e))
     = lastTotalContentSize [e] (_totalContentSize (vp w))
  /\ _forOf (vp (step w e)) = attachmentAfter [e] (_forOf (vp w))
  /\ isStopped (_detachedSubject (vp (step w e)))
     = isStopped (_detachedSubject (vp w)) || isDestroy e
  /\ isStopped (_renderedRangeSubject (vp (step w e)))
     = isStopped (_renderedRangeSubject (vp w)) || isDestroy e.
Proof.
  step_analysis e; split_cases; simpl; rewrite ?orb_false_r, ?orb_true_r;
    repeat split; try reflexivity; try congruence;
    try (apply rangesEqual_true_iff; assumption);
    try (apply Z.eqb_eq; assumption).
Qed.

Lemma lastRenderedRange_cons (e : Event) (es : list Event) (cur : ListRange) :
  lastRenderedRange (e :: es) cur
  = lastRenderedRange es (lastRenderedRange [e] cur).
Proof. destruct e; reflexivity. Qed.

Lemma lastTotalContentSize_cons (e : Event) (es : list Event) (cur : Z) :
  lastTotalContentSize (e :: es) cur
  = lastTotalContentSize es (lastTotalContentSize [e] cur).
Proof. destruct e; reflexivity. Qed.

Lemma attachmentAfter_cons (e : Event) (es : list Event)
    (cur : option CdkVirtualForOf) :
  attachmentAfter (e :: es) cur = attachmentAfter es (attachmentAfter [e] cur).
Proof. destruct e; reflexivity. Qed.

Lemma run_fields (es : list Event) :
  forall w,
    _renderedRange (vp (run es w)) = lastRenderedRange es (_renderedRange (vp w))
    /\ _totalContentSize (vp (run es w))
       = lastTotalContentSize es (_totalContentSize (vp w))
    /\ _forOf (vp (run es w)) = attachmentAfter es (_forOf (vp w)).
Proof.
  induction es as [|e es IH]; intros w; [repeat split; reflexivity|].
  rewrite run_cons, lastRenderedRange_cons, lastTotalContentSize_cons,
    attachmentAfter_cons.
  destruct (IH (step w e)) as (Hr & Hs & Hf).
  destruct (step_fields w e) as (Hr' & Hs' & Hf' & _).
  rewrite Hr, Hs, Hf, Hr', Hs', Hf'. repeat split; reflexivity.
Qed.

(** X1.  Whatever happens, [getRenderedRange] answers with the range of
    the most recent [setRenderedRange] call, and [_totalContentSize] holds
    the size of the most recent [setTotalContentSize] call; a call that is
    skipped by its guard still leaves its argument in place. *)
Theorem X1_last_write_wins (w : World) (es : list Event) :
  getRenderedRange (run es w) = lastRenderedRange es (getRenderedRange w)
  /\ _totalContentSize (vp (run es w))
     = lastTotalContentSize es (_totalContentSize (vp w))
  /\ (forall r, getRenderedRange (run (es ++ [SetRenderedRange r]) w) = r)
  /\ (forall s,
        _totalContentSize (vp (run (es ++ [SetTotalContentSize s]) w)) = s).
Proof.
  unfold getRenderedRange.
  destruct (run_fields es w) as (Hr & Hs & _).
  split; [exact Hr|]. split; [exact Hs|]. split.
  - intros r. rewrite run_snoc.
    apply (proj1 (step_fields (run es w) (SetRenderedRange r))).
  - intros s0. rewrite run_snoc.
    apply (proj1 (proj2 (step_fields (run es w) (SetTotalContentSize s0)))).
Qed.

(** X2.  [measureRangeSize] depends on the attach/detach history alone: it
    is 0 whenever no [CdkVirtualForOf] is attached (it never asks a
    detached one, and cannot throw then), and otherwise the answer of the
    one that is attached, asked with the viewport's orientation.  A failed
    second [attach] does not redirect it. *)
Theorem X2_measureRangeSize_follows_attachment (w : World) (es : list Event)
    (range : ListRange) :
  measureRangeSize range (run es w)
  = match attachmentAfter es (_forOf (vp w)) with
    | None => Some 0
    | Some forOf => forOf_measureRangeSize forOf range (orientation (vp w))
    end.
Proof.
  unfold measureRangeSize.
  destruct (run_fields es w) as (_ & _ & Hf).
  destruct (run_scroll_state es w) as [_ Ho].
  rewrite Hf, Ho. reflexivity.
Qed.

(** ** What is written to the element *)

Lemma step_element (w : World) (e : Event) :
  clientWidth (nativeElement (step w e)) = clientWidth (nativeElement w)
  /\ clientHeight (nativeElement (step w e)) = clientHeight (nativeElement w)
  /\ crossScroll (step w e) = crossScroll w
  /\ (isDoCheck e = false -> nativeElement (step w e) = nativeElement w).
Proof.
  unfold crossScroll. rewrite (proj2 (step_scroll_state w e)).
  step_analysis e; repeat (split_cases; simpl);
    repeat split; intros; try reflexivity; try congruence.
Qed.

(** X3.  The component writes to the element in [ngDoCheck] only, and only
    the scroll position along its orientation: no history changes the
    client width or height or the scroll position of the other axis, and a
    history without [ngDoCheck] leaves the element as it was. *)
Theorem X3_element_writes (w : World) (es : list Event) :
  clientWidth (nativeElement (run es w)) = clientWidth (nativeElement w)
  /\ clientHeight (nativeElement (run es w)) = clientHeight (nativeElement w)
  /\ crossScroll (run es w) = crossScroll w
  /\ (forallb (fun e => negb (isDoCheck e)) es = true ->
      nativeElement (run es w) = nativeElement w).
Proof.
  revert w. induction es as [|e es IH]; intros w;
    [repeat split; reflexivity|].
  rewrite run_cons.
  destruct (IH (step w e)) as (Hw & Hh & Hc & Hn).
  destruct (step_element w e) as (Hw' & Hh' & Hc' & Hn').
  rewrite Hw, Hh, Hc, Hw', Hh', Hc'.
  repeat split.
  simpl. intros H. apply andb_true_iff in H. destruct H as [He Hes].
  apply negb_true_iff in He. rewrite (Hn Hes). apply Hn', He.
Qed.

(** ** The published ranges *)

Lemma rangeEmissions_strategy_repeat (c : StrategyCall) (n : nat) :
  rangeEmissions (repeat (Strategy c) n) = [].
Proof. induction n; simpl; auto. Qed.

Lemma rangeEmissions_tasks (q : list Microtask) :
  rangeEmissions (map taskEffect q) = [].
Proof. induction q as [|t q IH]; [reflexivity|]. destruct t; exact IH. Qed.

Lemma rangeEmissions_stepEffects (w : World) (e : Event) :
  rangeEmissions (stepEffects w e)
  = match e with
    | SetRenderedRange range =>
        if rangesEqual (_renderedRange (vp w)) range then []
        else if Subject_delivers (_renderedRangeSubject (vp w))
             then [range] else []
    | _ => []
    end.
Proof.
  destruct e; simpl; split_cases; try reflexivity.
  - apply rangeEmissions_strategy_repeat.
  - apply rangeEmissions_tasks.
Qed.

Lemma adjacentDistinct_snoc (l : list ListRange) :
  forall a r,
    adjacentDistinct ((a :: l) ++ [r])
    = adjacentDistinct (a :: l) && negb (rangesEqual (last l a) r).
Proof.
  induction l as [|b l IH]; intros a r.
  - simpl. rewrite andb_true_r. reflexivity.
  - change (adjacentDistinct ((a :: b :: l) ++ [r]))
      with (negb (rangesEqual a b) && adjacentDistinct ((b :: l) ++ [r])).
    rewrite (IH b r).
    change (adjacentDistinct (a :: b :: l))
      with (negb (rangesEqual a b) && adjacentDistinct (b :: l)).
    rewrite (last_cons_default l b a), andb_assoc. reflexivity.
Qed.

Lemma step_rangeStream (w : World) (e : Event) :
  rangeStreamInvariant w -> rangeStreamInvariant (step w e).
Proof.
  intros [Hadj Hlast]. unfold rangeStreamInvariant.
  destruct (step_fields w e) as (Hr & _ & _ & _ & Hstop).
  rewrite step_trace, rangeEmissions_app, rangeEmissions_stepEffects, Hr, Hstop.
  destruct e;
    try solve [simpl; rewrite ?app_nil_r, ?orb_false_r, ?orb_true_r;
               split; [exact Hadj | first [exact Hlast | discriminate]]].
  cbn [lastRenderedRange isDestroy]. rewrite orb_false_r.
  unfold Subject_delivers.
  destruct (rangesEqual (_renderedRange (vp w)) range) eqn:E.
  - rewrite app_nil_r. split; [exact Hadj|].
    intros H. rewrite (Hlast H). apply rangesEqual_true_iff, E.
  - destruct (isStopped (_renderedRangeSubject (vp w))) eqn:S; cbn [negb].
    + rewrite app_nil_r. split; [exact Hadj | discriminate].
    + split.
      * change (initialRange :: rangeEmissions (trace w) ++ [range])
          with ((initialRange :: rangeEmissions (trace w)) ++ [range]).
        rewrite adjacentDistinct_snoc, Hadj, (Hlast eq_refl), E. reflexivity.
      * intros _. apply last_last.
Qed.

Lemma run_invariant (P : World -> Prop) (es : list Event) :
  (forall w e, P w -> P (step w e)) -> forall w, P w -> P (run es w).
Proof. intros H w Hw. unfold run. apply fold_left_invariant; assumption. Qed.

Lemma run_stopped (es : list Event) :
  forall w,
    isStopped (_detachedSubject (vp (run es w)))
      = isStopped (_detachedSubject (vp w)) || existsb isDestroy es
    /\ isStopped (_renderedRangeSubject (vp (run es w)))
      = isStopped (_renderedRangeSubject (vp w)) || existsb isDestroy es.
Proof.
  induction es as [|e es IH]; intros w.
  - simpl. rewrite !orb_false_r. split; reflexivity.
  - rewrite run_cons. destruct (IH (step w e)) as [H1 H2].
    destruct (step_fields w e) as (_ & _ & _ & H3 & H4).
    rewrite H1, H2, H3, H4. simpl. rewrite !orb_assoc. split; reflexivity.
Qed.

Lemma no_destroy_existsb (es : list Event) :
  forallb (fun e => negb (isDestroy e)) es = true ->
  existsb isDestroy es = false.
Proof.
  induction es as [|e es IH]; simpl; [reflexivity|].
  intros H. apply andb_true_iff in H. destruct H as [He Hes].
  apply negb_true_iff in He. rewrite He, (IH Hes). reflexivity.
Qed.

(** X4.  On [renderedRangeStream], from a new viewport: no range is
    published twice in a row, and the first published range is never the
    initial [{0, 0}]; as long as the viewport has not been destroyed, the
    last published range is the one [getRenderedRange] returns. *)
Theorem X4_range_stream (o : Orientation) (el : Element) (es : list Event) :
  let w := run es (newWorld o el) in
  adjacentDistinct (initialRange :: rangeEmissions (trace w)) = true
  /\ (forallb (fun e => negb (isDestroy e)) es = true ->
      last (rangeEmissions (trace w)) initialRange = getRenderedRange w).
Proof.
  intros w.
  assert (H : rangeStreamInvariant w).
  { apply run_invariant; [apply step_rangeStream|].
    split; [reflexivity | intros _; reflexivity]. }
  destruct H as [Hadj Hlast]. split; [exact Hadj|].
  intros Hes. apply Hlast.
  destruct (run_stopped es (newWorld o el)) as [_ Hs]. fold w in Hs.
  rewrite Hs, (no_destroy_existsb es Hes). reflexivity.
Qed.

(** ** After [ngOnDestroy] *)

Lemma filter_strategy_repeat (p : Effect -> bool) (c : StrategyCall) (n : nat) :
  p (Strategy c) = false -> filter p (repeat (Strategy c) n) = [].
Proof. intros H. induction n; simpl; [|rewrite H]; auto. Qed.

Lemma filter_tasks (p : Effect -> bool) (q : list Microtask) :
  (forall c, p (Strategy c) = false) -> filter p (map taskEffect q) = [].
Proof.
  intros H. induction q as [|t q IH]; [reflexivity|].
  destruct t; simpl; rewrite H; exact IH.
Qed.

Lemma countDetachedEmitted_app (t1 t2 : list Effect) :
  countDetachedEmitted (t1 ++ t2)
  = (countDetachedEmitted t1 + countDetachedEmitted t2)%nat.
Proof.
  unfold countDetachedEmitted. rewrite filter_app, length_app. reflexivity.
Qed.

Lemma stopped_step (w : World) (e : Event) :
  isStopped (_detachedSubject (vp w)) = true ->
  isStopped (_renderedRangeSubject (vp w)) = true ->
  rangeEmissions (trace (step w e)) = rangeEmissions (trace w)
  /\ countDetachedEmitted (trace (step w e)) = countDetachedEmitted (trace w)
  /\ isStopped (_detachedSubject (vp (step w e))) = true
  /\ isStopped (_renderedRangeSubject (vp (step w e))) = true.
Proof.
  intros Hd Hr.
  destruct (step_fields w e) as (_ & _ & _ & Hd' & Hr').
  rewrite Hd', Hr', Hd, Hr.
  rewrite step_trace, rangeEmissions_app, countDetachedEmitted_app,
    rangeEmissions_stepEffects.
  unfold Subject_delivers. rewrite Hr.
  split; [|split; [|split; reflexivity]].
  - destruct e; simpl; rewrite ?app_nil_r; try reflexivity.
    destruct (rangesEqual _ _); rewrite app_nil_r; reflexivity.
  - replace (countDetachedEmitted (stepEffects w e)) with 0%nat; [lia|].
    unfold countDetachedEmitted.
    destruct e; simpl; unfold Subject_delivers; rewrite ?Hd; simpl;
      split_cases; simpl; try reflexivity.
    + rewrite filter_strategy_repeat; reflexivity.
    + rewrite filter_tasks; reflexivity.
Qed.

(** X5.  Once [ngOnDestroy] has run, whatever happens afterwards: no
    range is published on [renderedRangeStream], no detach signal is
    emitted, and both subjects stay completed.  [ngOnDestroy] itself
    publishes no range. *)
Theorem X5_destroy_completes_streams (w : World) (es : list Event) :
  let w' := run es (ngOnDestroy w) in
  rangeEmissions (trace w') = rangeEmissions (trace w)
  /\ countDetachedEmitted (trace w') = countDetachedEmitted (trace (ngOnDestroy w))
  /\ isStopped (_detachedSubject (vp w')) = true
  /\ isStopped (_renderedRangeSubject (vp w')) = true.
Proof.
  intros w'.
  assert (H0 : rangeEmissions (trace (ngOnDestroy w)) = rangeEmissions (trace w)).
  { change (ngOnDestroy w) with (step w NgOnDestroy).
    rewrite step_trace, rangeEmissions_app, rangeEmissions_stepEffects.
    apply app_nil_r. }
  rewrite <- H0. unfold w'.
  apply (run_invariant
           (fun a =>
              rangeEmissions (trace a) = rangeEmissions (trace (ngOnDestroy w))
              /\ countDetachedEmitted (trace a)
                 = countDetachedEmitted (trace (ngOnDestroy w))
              /\ isStopped (_detachedSubject (vp a)) = true
              /\ isStopped (_renderedRangeSubject (vp a)) = true)).
  - intros a e (H1 & H2 & H3 & H4).
    destruct (stopped_step a e H3 H4) as (H1' & H2' & H3' & H4').
    rewrite H1', H2', H1, H2. repeat split; assumption.
  - repeat split; reflexivity.
Qed.

(** ** Who calls the strategy *)

Lemma strategyCalls_app (t1 t2 : list Effect) :
  strategyCalls (t1 ++ t2) = strategyCalls t1 ++ strategyCalls t2.
Proof. unfold strategyCalls. apply filter_app. Qed.


(** ** The data length *)

Lemma step_dataLength (w : World) (e : Event) :
  (0 <= _dataLength (vp w) -> 0 <= _dataLength (vp (step w e)))
  /\ (isDataStreamNext e = false ->
      _dataLength (vp (step w e)) = _dataLength (vp w)).
Proof.
  step_analysis e; repeat (split_cases; simpl);
    split; intros; try reflexivity; try assumption; try discriminate; lia.
Qed.

Lemma run_dataLength_kept (es : list Event) :
  forall w,
    forallb (fun e => negb (isDataStreamNext e)) es = true ->
    _dataLength (vp (run es w)) = _dataLength (vp w).
Proof.
  induction es as [|e es IH]; intros w H; [reflexivity|].
  simpl in H. apply andb_true_iff in H. destruct H as [He Hes].
  apply negb_true_iff in He.
  rewrite run_cons, (IH _ Hes). apply (proj2 (step_dataLength w e)), He.
Qed.

(** X7.  [getDataLength] is never negative, and nothing but an emission of
    a data stream changes it. *)
Theorem X7_data_length (o : Orientation) (el : Element) (es : list Event)
    (w : World) (es' : list Event) :
  0 <= getDataLength (run es (newWorld o el))
  /\ (forallb (fun e => negb (isDataStreamNext e)) es' = true ->
      getDataLength (run es' w) = getDataLength w).
Proof.
  unfold getDataLength. split.
  - apply (run_invariant (fun a => 0 <= _dataLength (vp a))).
    + intros a e. apply (proj1 (step_dataLength a e)).
    + simpl. lia.
  - apply run_dataLength_kept.
Qed.

(** ** One attachment, one subscription *)

Lemma step_attachment (w : World) (e : Event) :
  isDestroy e = false ->
  isStopped (_detachedSubject (vp w)) = false ->
  dataSubscriptions w = subscriptionsOf (_forOf (vp w)) ->
  dataSubscriptions (step w e) = subscriptionsOf (_forOf (vp (step w e))).
Proof.
  intros He Hs Hsub. revert He.
  step_analysis e; unfold Subject_delivers; rewrite ?Hs; simpl;
    repeat (split_cases; simpl); intros; try discriminate;
    rewrite ?Hsub; try reflexivity;
    match goal with H : _forOf (vp w) = _ |- _ => rewrite H end; reflexivity.
Qed.

(** X8.  On a viewport that has not been destroyed there is exactly one
    live data-stream subscription while a [CdkVirtualForOf] is attached,
    to that one, and none while nothing is attached; an emission of any
    other [CdkVirtualForOf] (one detached earlier, or never attached)
    changes nothing. *)
Theorem X8_single_subscription (o : Orientation) (el : Element)
    (es : list Event) :
  forallb (fun e => negb (isDestroy e)) es = true ->
  let w := run es (newWorld o el) in
  dataSubscriptions w = subscriptionsOf (_forOf (vp w))
  /\ forall forOf data,
       _forOf (vp w) <> Some forOf -> dataStream_next forOf data w = w.
Proof.
  intros Hes w.
  assert (H : isStopped (_detachedSubject (vp w)) = false
              /\ dataSubscriptions w = subscriptionsOf (_forOf (vp w))).
  { unfold w. clear w. revert Hes.
    generalize (newWorld o el) (eq_refl : isStopped (_detachedSubject (vp (newWorld o el))) = false)
               (eq_refl : dataSubscriptions (newWorld o el)
                          = subscriptionsOf (_forOf (vp (newWorld o el)))).
    induction es as [|e es IH]; intros w Hs Hsub H; [split; assumption|].
    simpl in H. apply andb_true_iff in H. destruct H as [He Hes].
    apply negb_true_iff in He. rewrite run_cons. apply IH; [| |exact Hes].
    - destruct (step_fields w e) as (_ & _ & _ & Hd & _).
      rewrite Hd, Hs, He. reflexivity.
    - apply step_attachment; assumption. }
  destruct H as [_ Hsub]. split; [exact Hsub|].
  intros forOf data Hne. rewrite dataStream_next_eq, Hsub.
  destruct (_forOf (vp w)) as [g|]; simpl; [|reflexivity].
  destruct (Nat.eqb g forOf) eqn:E; [|reflexivity].
  apply Nat.eqb_eq in E. subst g. contradiction Hne. reflexivity.
Qed.

(** ** One [onContentRendered] per committed range *)

Lemma countRangeChanges_cons (e : Event) (es : list Event) (cur : ListRange) :
  countRangeChanges (e :: es) cur
  = (countRangeChanges [e] cur
     + countRangeChanges es (lastRenderedRange [e] cur))%nat.
Proof. destruct e; simpl; lia. Qed.

Lemma countRangeChanges_app (es1 es2 : list Event) :
  forall cur,
    countRangeChanges (es1 ++ es2) cur
    = (countRangeChanges es1 cur
       + countRangeChanges es2 (lastRenderedRange es1 cur))%nat.
Proof.
  induction es1 as [|e es1 IH]; intros cur; [reflexivity|].
  rewrite <- app_comm_cons, countRangeChanges_cons, IH.
  rewrite (countRangeChanges_cons e es1), (lastRenderedRange_cons e es1). lia.
Qed.

Lemma rendered_tasks_effects (q : list Microtask) :
  countContentRendered (map taskEffect q)
  = List.length (filter is_rendered_task q).
Proof.
  unfold countContentRendered.
  induction q as [|t q IH]; [reflexivity|]. destruct t; simpl; rewrite IH;
    reflexivity.
Qed.

Lemma rendered_tasks_repeat (n : nat) :
  List.length (filter is_rendered_task (repeat ContentRenderedTask n)) = n.
Proof. induction n; simpl; auto. Qed.

(** Calls made plus calls still to come grow by one with every committed
    range change, and with nothing else. *)
Lemma step_rendered (w : World) (e : Event) :
  (countContentRendered (trace (step w e)) + renderedOutstanding (step w e))%nat
  = (countContentRendered (trace w) + renderedOutstanding w
     + countRangeChanges [e] (_renderedRange (vp w)))%nat.
Proof.
  rewrite step_trace, countContentRendered_app. unfold renderedOutstanding.
  step_analysis e; repeat (split_cases; simpl);
    rewrite ?filter_app, ?length_app, ?rendered_tasks_repeat,
      ?rendered_tasks_effects;
    unfold countContentRendered; simpl; try lia.
  rewrite filter_strategy_repeat by reflexivity. simpl. lia.
Qed.

Lemma run_rendered (es : list Event) :
  forall w,
    (countContentRendered (trace (run es w)) + renderedOutstanding (run es w))%nat
    = (countContentRendered (trace w) + renderedOutstanding w
       + countRangeChanges es (_renderedRange (vp w)))%nat.
Proof.
  induction es as [|e es IH]; intros w; [simpl; lia|].
  rewrite run_cons, IH, step_rendered, (countRangeChanges_cons e es).
  rewrite (proj1 (step_fields w e)). lia.
Qed.

(** X9.  [onContentRendered] is called once for every [setRenderedRange]
    call that changed the range, not once per cycle: after any history,
    once the zone is stable and the microtask queue has run, the number of
    calls has grown by the calls that were outstanding plus the number of
    range changes of the history, and none is outstanding. *)
Theorem X9_rendered_per_range_change (w : World) (es : list Event) :
  let w' := run (es ++ [ZoneStable; MicrotaskCheckpoint]) w in
  countContentRendered (trace w')
  = (countContentRendered (trace w) + renderedOutstanding w
     + countRangeChanges es (getRenderedRange w))%nat
  /\ renderedOutstanding w' = 0%nat.
Proof.
  intros w'.
  assert (H0 : renderedOutstanding w' = 0%nat).
  { unfold w', run. rewrite fold_left_app. cbn [fold_left].
    set (a := step (fold_left step es w) ZoneStable).
    change (step a MicrotaskCheckpoint) with (microtaskCheckpoint a).
    unfold renderedOutstanding.
    destruct (microtaskCheckpoint_spec a) as (_ & _ & _ & _ & _ & Ho & Hm).
    rewrite Ho, Hm. reflexivity. }
  split; [|exact H0].
  pose proof (run_rendered (es ++ [ZoneStable; MicrotaskCheckpoint]) w) as H.
  fold w' in H. rewrite H0, countRangeChanges_app in H. simpl in H.
  unfold getRenderedRange. lia.
Qed.

(** ** Initialisation and scroll events *)

Lemma countStrategyAttach_app (t1 t2 : list Effect) :
  countStrategyAttach (t1 ++ t2)
  = (countStrategyAttach t1 + countStrategyAttach t2)%nat.
Proof.
  unfold countStrategyAttach. rewrite filter_app, length_app. reflexivity.
Qed.

Lemma countContentScrolled_app (t1 t2 : list Effect) :
  countContentScrolled (t1 ++ t2)
  = (countContentScrolled t1 + countContentScrolled t2)%nat.
Proof.
  unfold countContentScrolled. rewrite filter_app, length_app. reflexivity.
Qed.

Lemma scrolledBeforeAttach_app (t1 t2 : list Effect) :
  scrolledBeforeAttach (t1 ++ t2)
  = if Nat.eqb (countStrategyAttach t1) 0
    then (scrolledBeforeAttach t1 + scrolledBeforeAttach t2)%nat
    else scrolledBeforeAttach t1.
Proof.
  induction t1 as [|e t1 IH]; [reflexivity|].
  destruct e as [r| | |o v|c]; try exact IH.
  destruct c; try exact IH; try reflexivity.
  change (countStrategyAttach (Strategy OnContentScrolled :: t1))
    with (countStrategyAttach t1).
  simpl. rewrite IH. destruct (Nat.eqb (countStrategyAttach t1) 0); reflexivity.
Qed.

Lemma scrolledBeforeAttach_none (t : list Effect) :
  countContentScrolled t = 0%nat -> scrolledBeforeAttach t = 0%nat.
Proof.
  induction t as [|e t IH]; [reflexivity|].
  destruct e as [r| | |o v|c]; try exact IH.
  destruct c; try exact IH; try reflexivity.
  unfold countContentScrolled. simpl. discriminate.
Qed.

Lemma init_tasks_effects (q : list Microtask) :
  countStrategyAttach (map taskEffect q) = List.length (filter is_init_task q)
  /\ countContentScrolled (map taskEffect q) = 0%nat.
Proof.
  unfold countStrategyAttach, countContentScrolled.
  induction q as [|t q [IH1 IH2]]; [split; reflexivity|].
  destruct t; simpl; rewrite IH1, IH2; split; reflexivity.
Qed.

Lemma init_tasks_existsb (q : list Microtask) :
  existsb is_init_task q
  = negb (Nat.eqb (List.length (filter is_init_task q)) 0).
Proof.
  induction q as [|t q IH]; [reflexivity|]. destruct t; simpl; [reflexivity|].
  exact IH.
Qed.

Lemma step_init (w : World) (e : Event) :
  scrollSubscriptions (step w e) = (scrollSubscriptions w + initsRun w e)%nat
  /\ countStrategyAttach (stepEffects w e) = initsRun w e
  /\ _viewportSize (vp (step w e))
     = (if Nat.eqb (initsRun w e) 0 then _viewportSize (vp w) else clientExtent w)
  /\ clientExtent (step w e) = clientExtent w.
Proof.
  assert (Hext : clientExtent (step w e) = clientExtent w).
  { unfold clientExtent. destruct (step_element w e) as (Hw & Hh & _).
    rewrite Hw, Hh, (proj2 (step_scroll_state w e)). reflexivity. }
  split; [|split; [|split; [|exact Hext]]].
  - step_analysis e; repeat (split_cases; simpl); lia.
  - unfold countStrategyAttach.
    destruct e; simpl; split_cases; simpl; try reflexivity.
    + rewrite filter_strategy_repeat; reflexivity.
    + apply (proj1 (init_tasks_effects (microtasks w))).
  - step_analysis e; try rewrite init_tasks_existsb;
      repeat (split_cases; simpl); try reflexivity;
      simpl in *; congruence.
Qed.

Lemma step_initInvariant (w : World) (e : Event) :
  initInvariant w -> initInvariant (step w e).
Proof.
  intros (Hs & Hb & Hv). unfold initInvariant.
  destruct (step_init w e) as (H1 & H2 & H3 & H4).
  rewrite step_trace, countStrategyAttach_app, scrolledBeforeAttach_app.
  rewrite H1, H2, H3, H4, Hs, Hb, Hv.
  split; [reflexivity|]. split.
  - destruct (Nat.eqb_spec (countStrategyAttach (trace w)) 0) as [E|E];
      [|reflexivity].
    simpl. destruct e; try (apply scrolledBeforeAttach_none;
      unfold countContentScrolled; simpl; split_cases; reflexivity).
    + simpl. rewrite Hs, E. reflexivity.
    + apply scrolledBeforeAttach_none, (proj2 (init_tasks_effects (microtasks w))).
  - destruct (Nat.eqb_spec (initsRun w e) 0) as [E|E].
    + rewrite E, Nat.add_0_r. reflexivity.
    + destruct (Nat.eqb_spec (countStrategyAttach (trace w) + initsRun w e) 0);
        [lia | reflexivity].
Qed.

Lemma run_initInvariant (o : Orientation) (el : Element) (es : list Event) :
  initInvariant (run es (newWorld o el))
  /\ clientExtent (run es (newWorld o el)) = clientExtent (newWorld o el).
Proof.
  split.
  - apply run_invariant; [apply step_initInvariant|].
    repeat split; reflexivity.
  - apply (run_invariant (fun a => clientExtent a = clientExtent (newWorld o el)));
      [|reflexivity].
    intros a e Ha. rewrite <- Ha. apply (step_init a e).
Qed.

(** X10.  From a new viewport: [onContentScrolled] is never called before
    [scrollStrategy.attach] has been called; the live scroll subscriptions
    are as many as the [attach] calls made, none is ever released, and a
    sampled scroll event calls [onContentScrolled] once for each. *)
Theorem X10_scroll_after_attach (o : Orientation) (el : Element)
    (es : list Event) :
  let w := run es (newWorld o el) in
  scrolledBeforeAttach (trace w) = 0%nat
  /\ scrollSubscriptions w = countStrategyAttach (trace w)
  /\ countContentScrolled (trace (scrollSampled w))
     = (countContentScrolled (trace w) + countStrategyAttach (trace w))%nat
  /\ forall e, (scrollSubscriptions w <= scrollSubscriptions (step w e))%nat.
Proof.
  intros w. destruct (run_initInvariant o el es) as [(Hs & Hb & _) _].
  fold w in Hs, Hb.
  split; [exact Hb|]. split; [exact Hs|]. split.
  - rewrite (proj1 (scrollSampled_spec w)), countContentScrolled_app, Hs.
    f_equal. unfold countContentScrolled.
    generalize (countStrategyAttach (trace w)). intros n.
    induction n as [|n IH]; simpl; [reflexivity | rewrite IH; reflexivity].
  - intros e. rewrite (proj1 (step_init w e)). lia.
Qed.


(** ** The transform string determines its arguments *)

Lemma append_assoc (a b c : string) :
  ((a ++ b) ++ c)%string = (a ++ (b ++ c))%string.
Proof. induction a as [|x a IH]; simpl; [|rewrite IH]; reflexivity. Qed.

Lemma append_cancel_l (p a b : string) :
  (p ++ a)%string = (p ++ b)%string -> a = b.
Proof.
  induction p as [|x p IH]; simpl; intros H; [exact H|].
  injection H as H. apply IH, H.
Qed.

(** Two strings without [c], each followed by [c], are read off
    unambiguously. *)
Lemma lacks_split (c : ascii) (a : string) :
  forall b s t,
    lacks c a = true -> lacks c b = true ->
    (a ++ String c s)%string = (b ++ String c t)%string ->
    a = b /\ s = t.
Proof.
  induction a as [|x a IH]; intros b s t Ha Hb H; destruct b as [|y b];
    simpl in *.
  - injection H as H. split; [reflexivity | exact H].
  - injection H as Hc _. subst y. rewrite Ascii.eqb_refl in Hb. discriminate.
  - injection H as Hc _. subst x. rewrite Ascii.eqb_refl in Ha. discriminate.
  - injection H as Hxy H. subst y.
    apply andb_true_iff in Ha. apply andb_true_iff in Hb.
    destruct (IH b s t (proj2 Ha) (proj2 Hb) H) as [E1 E2].
    rewrite E1. split; [reflexivity | exact E2].
Qed.

Lemma lacks_p_uint (d : Decimal.uint) :
  lacks "p" (NilEmpty.string_of_uint d) = true.
Proof. induction d; simpl; auto. Qed.

Lemma lacks_p_Number (n : Z) : lacks "p" (Number_toString n) = true.
Proof.
  unfold Number_toString. destruct n as [|q|q]; simpl; [reflexivity| |];
    destruct (Pos.to_uint q); simpl; try reflexivity; apply lacks_p_uint.
Qed.

Lemma Number_toString_inj (a b : Z) :
  Number_toString a = Number_toString b -> a = b.
Proof.
  unfold Number_toString. intros H.
  assert (Hnz : forall z, Z.to_int z <> Decimal.Pos Decimal.Nil
                          /\ Z.to_int z <> Decimal.Neg Decimal.Nil).
  { intros z. destruct z as [|q|q]; simpl; split; try discriminate;
      intros E; injection E as E;
      exact (DecimalPos.Unsigned.to_uint_nonnil q E). }
  apply DecimalZ.to_int_inj.
  apply (f_equal NilZero.int_of_string) in H.
  rewrite (NilZero.isi _ (proj1 (Hnz a)) (proj2 (Hnz a))) in H.
  rewrite (NilZero.isi _ (proj1 (Hnz b)) (proj2 (Hnz b))) in H.
  injection H as H. exact H.
Qed.

Lemma contentTransform_shape (o : Orientation) (offset : Z) (to : Edge) :
  contentTransform o offset to
  = (transformPrefix o
     ++ Number_toString offset ++ String "p" (transformTail o to))%string.
Proof.
  destruct o, to; unfold contentTransform, transformPrefix, transformTail;
    rewrite ?append_assoc; reflexivity.
Qed.

Lemma contentTransform_inj (o o' : Orientation) (offset offset' : Z)
    (to to' : Edge) :
  contentTransform o offset to = contentTransform o' offset' to' ->
  o = o' /\ offset = offset' /\ to = to'.
Proof.
  rewrite !contentTransform_shape. intros H.
  assert (Ho : o = o').
  { destruct o, o'; try reflexivity; simpl in H; discriminate H. }
  subst o'. apply append_cancel_l in H.
  destruct (lacks_split "p" _ _ _ _ (lacks_p_Number offset)
              (lacks_p_Number offset') H) as [Hn Ht].
  split; [reflexivity|]. split; [apply Number_toString_inj, Hn|].
  destruct o, to, to'; try reflexivity; discriminate Ht.
Qed.

(** X12.  The transform string determines the orientation, the offset and
    the edge it was computed from: two calls of [setRenderedContentOffset]
    compute the same string only for the same arguments on viewports of the
    same orientation. *)
Theorem X12_contentTransform_injective (o o' : Orientation) (offset offset' : Z)
    (to to' : Edge) :
  contentTransform o offset to = contentTransform o' offset' to' ->
  o = o' /\ offset = offset' /\ to = to'.
Proof. apply contentTransform_inj. Qed.

End Viewport.

Arguments vp {sanitizer} _.
Arguments trace {sanitizer} _.
Arguments nativeElement {sanitizer} _.
Arguments dataSubscriptions {sanitizer} _.
Arguments microtasks {sanitizer} _.
Arguments onStableOnce {sanitizer} _.
Arguments orientation {sanitizer} _.
Arguments _renderedContentTransform {sanitizer} _.
Arguments _renderedRange {sanitizer} _.
Arguments _totalContentSize {sanitizer} _.
Arguments _dataLength {sanitizer} _.
Arguments _pendingScrollOffset {sanitizer} _.
Arguments _forOf {sanitizer} _.
Arguments _detachedSubject {sanitizer} _.
Arguments emit {sanitizer} _ _.
Arguments attach {sanitizer} _ _.
Arguments detach {sanitizer} _.
Arguments ngDoCheck {sanitizer} _.
Arguments setRenderedRange {sanitizer} _ _.
Arguments setTotalContentSize {sanitizer} _ _.
Arguments setRenderedContentOffset {sanitizer} _ _ _.
Arguments setScrollOffset {sanitizer} _ _.
Arguments dataStream_next {sanitizer} _ _ _.
Arguments zoneStable {sanitizer} _.
Arguments microtaskCheckpoint {sanitizer} _.
Arguments measureScrollOffset {sanitizer} _.
Arguments getDataLength {sanitizer} _.
Arguments step {sanitizer} _ _.
Arguments run {sanitizer} _ _.
Arguments settled {sanitizer} _.
Arguments transformDiffers {sanitizer} _ _.
Arguments Ok {sanitizer} _.
Arguments Throw {sanitizer} _ _.

(** ** The framework's sanitizer *)

(** The wrapper's [toString()] begins with the warning text, the computed
    transform with [translate]: under the framework's sanitizer the guard
    of [setRenderedContentOffset] is passed whatever is stored. *)
Lemma transformDiffers_angular (stored : option SafeStyleImpl)
    (o : Orientation) (offset : Z) (to : Edge) :
  @transformDiffers angularSanitizer stored (contentTransform o offset to) = true.
Proof.
  destruct stored as [v|]; [|reflexivity].
  destruct o, to; reflexivity.
Qed.

Lemma setRenderedContentOffset_angular (w : World angularSanitizer)
    (offset : Z) (to : Edge) :
  trace (setRenderedContentOffset offset to w) = trace w ++ [MarkForCheck].
Proof.
  unfold setRenderedContentOffset. rewrite transformDiffers_angular.
  reflexivity.
Qed.

(** With a sanitizer whose trusted value compares equal to the string it
    was made from, a repeated call changes nothing. *)
Lemma setRenderedContentOffset_twice_transparent
    (w : World transparentSanitizer) (offset : Z) (to : Edge) :
  setRenderedContentOffset offset to (setRenderedContentOffset offset to w)
  = setRenderedContentOffset offset to w.
Proof.
  destruct (transformDiffers (_renderedContentTransform (vp w))
              (contentTransform (orientation (vp w)) offset to)) eqn:E.
  - rewrite (setRenderedContentOffset_twice transparentSanitizer w offset to E).
    simpl. rewrite String.eqb_refl. reflexivity.
  - rewrite (setRenderedContentOffset_guarded transparentSanitizer w offset to E).
    apply setRenderedContentOffset_guarded, E.
Qed.

(** C7.  A new vertical viewport built with the framework's sanitizer,
    [setRenderedContentOffset(100)] called twice: the first call stores the
    wrapped [translateY(100px)] and marks for check; the second call, with
    the same arguments, passes the guard again, stores a new wrapper and
    marks for check a second time. *)
Theorem C7_repeated_offset_marks_again :
  let w0 := sampleWorld angularSanitizer in
  let w1 := setRenderedContentOffset 100 ToStart w0 in
  let w2 := setRenderedContentOffset 100 ToStart w1 in
  _renderedContentTransform (vp w1) = Some (mkSafeStyleImpl "translateY(100px)")
  /\ transformDiffers (_renderedContentTransform (vp w1))
                      (contentTransform (orientation (vp w1)) 100 ToStart) = true
  /\ trace w1 = [MarkForCheck]
  /\ trace w2 = [MarkForCheck; MarkForCheck]
  /\ w2 <> w1.
Proof.
  intros w0 w1 w2.
  split; [reflexivity|].
  split; [reflexivity|].
  split; [reflexivity|].
  split; [reflexivity|].
  intros H. apply (f_equal trace) in H. discriminate H.
Qed.

(** ** Counterexamples *)

(** C4, as stated, at the initial range: two calls with [{0, 0}] on a new
    viewport publish no range at all. *)
Lemma C4_counterexample :
  let r := {| start := 0; end_ := 0 |} in
  let w := sampleWorld transparentSanitizer in
  rangeEmissions (trace (setRenderedRange r (setRenderedRange r w))) = []
  /\ List.length
       (rangeEmissions (trace (setRenderedRange r (setRenderedRange r w))))
     <> 1%nat.
Proof. split; [reflexivity | discriminate]. Qed.

(** C6, as stated: after [detach], the queued [onContentRendered] still
    fires once the zone is stable, and a sampled scroll event still reaches
    [onContentScrolled]. *)
Lemma C6_counterexample :
  let w := detachedWorld transparentSanitizer in
  _forOf (vp w) = None
  /\ strategyCalls (trace (run [ZoneStable; MicrotaskCheckpoint] w))
     = strategyCalls (trace w) ++ [Strategy OnContentRendered]
  /\ strategyCalls (trace (run [ScrollSampled] w))
     = strategyCalls (trace w) ++ [Strategy OnContentScrolled].
Proof. repeat split. Qed.

(** Why C6 asks for a viewport that has not been destroyed: once
    [ngOnDestroy] has completed [_detachedSubject], a later [attach] makes
    a subscription that [detach] can no longer end. *)
Lemma detach_after_destroy_keeps_subscription :
  let w := @ngOnDestroy transparentSanitizer (sampleWorld transparentSanitizer) in
  let w' := detach (world_of transparentSanitizer (attach 1%nat w)) in
  dataSubscriptions w' = [1%nat]
  /\ strategyCalls (trace (dataStream_next 1%nat [7; 8]%nat w'))
     = strategyCalls (trace w') ++ [Strategy OnDataLengthChanged].
Proof. split; reflexivity. Qed.

(** ** Instances *)

Lemma C1_witness :
  let w := sampleWorld transparentSanitizer in
  let r := {| start := 48; end_ := 68 |} in
  let es := [SetTotalContentSize 10000; SetRenderedContentOffset 2400 ToStart] in
  settled w
  /\ rangesEqual (_renderedRange (vp w)) r = false
  /\ forallb isFollowUp es = true
  /\ trace (microtaskCheckpoint (zoneStable (run es (setRenderedRange r w))))
     = trace (run es (setRenderedRange r w)) ++ [Strategy OnContentRendered].
Proof.
  intros w r es.
  assert (Hs : settled w) by (split; reflexivity).
  assert (Hr : rangesEqual (_renderedRange (vp w)) r = false) by reflexivity.
  assert (He : forallb isFollowUp es = true) by reflexivity.
  split; [exact Hs|]. split; [exact Hr|]. split; [exact He|].
  exact (proj1 (proj2 (C1_settle_then_notify transparentSanitizer w r es Hs Hr He))).
Defined.

Lemma C2_witness :
  let w := sampleWorld transparentSanitizer in
  let es := [SetScrollOffset 10; SetTotalContentSize 1000; SetScrollOffset 20] in
  forallb isSetter es = true
  /\ lastScrollOffset es None = Some 20
  /\ scrollWrites (trace (ngDoCheck (run es w))) = [(Vertical, 20)].
Proof.
  intros w es.
  assert (Hs : forallb isSetter es = true) by reflexivity.
  assert (Hl : lastScrollOffset es None = Some 20) by reflexivity.
  split; [exact Hs|]. split; [exact Hl|].
  exact (proj1 (proj2 (proj2 (C2_single_flush transparentSanitizer w es 20 Hs Hl)))).
Defined.

Lemma C3_witness :
  let w := attachedWorld transparentSanitizer in
  _forOf (vp w) = Some 1%nat
  /\ attach 2%nat w = Throw AlreadyAttached w.
Proof.
  intros w.
  assert (Hf : _forOf (vp w) = Some 1%nat) by reflexivity.
  split; [exact Hf|].
  exact (proj1 (C3_attach_exclusive transparentSanitizer w 1%nat 2%nat Hf)).
Defined.

Lemma C4_witness :
  let w := sampleWorld transparentSanitizer in
  let r := {| start := 0; end_ := 0 |} in
  _renderedRange (vp w) = r
  /\ _totalContentSize (vp w) = 0
  /\ setRenderedRange r w = w
  /\ setTotalContentSize 0 w = w.
Proof.
  intros w r.
  assert (Hr : _renderedRange (vp w) = r) by reflexivity.
  assert (Hs : _totalContentSize (vp w) = 0) by reflexivity.
  split; [exact Hr|]. split; [exact Hs|].
  destruct (C4_setters_idempotent transparentSanitizer w r 0)
    as (H1 & _ & _ & H4 & _).
  split; [exact (H1 Hr) | exact (H4 Hs)].
Defined.

Lemma C5_witness :
  let w := attachedWorld transparentSanitizer in
  let datas := [[1; 2; 3]; [4; 5; 6]; [7]]%nat in
  In 1%nat (dataSubscriptions w)
  /\ countDataLengthChanged
       (trace (fold_left (fun a d => dataStream_next 1%nat d a) datas w))
     = 2%nat.
Proof.
  intros w datas.
  assert (Hin : In 1%nat (dataSubscriptions w)) by (left; reflexivity).
  split; [exact Hin|].
  exact (proj1 (proj2 (C5_length_change_dedup transparentSanitizer w 1%nat datas Hin))).
Defined.

Lemma C6_witness :
  let w := attachedWorld transparentSanitizer in
  let es := [DataStreamNext 1%nat [1; 2]%nat; ScrollSampled; ZoneStable] in
  Subject_delivers (_detachedSubject (vp w)) = true
  /\ forallb (fun e => negb (isAttach e)) es = true
  /\ countDataLengthChanged (trace (run es (detach w))) = 0%nat.
Proof.
  intros w es.
  assert (Hl : Subject_delivers (_detachedSubject (vp w)) = true) by reflexivity.
  assert (He : forallb (fun e => negb (isAttach e)) es = true) by reflexivity.
  split; [exact Hl|]. split; [exact He|].
  exact (proj1 (proj2 (proj2
           (C6_detach_ends_length_listener transparentSanitizer w es Hl He)))).
Defined.

(** ** More closed facts and instances *)

Arguments getRenderedRange {sanitizer} _.
Arguments getViewportSize {sanitizer} _.
Arguments ngOnDestroy {sanitizer} _.
Arguments scrollSampled {sanitizer} _.
Arguments scrollSubscriptions {sanitizer} _.

(** What [setRenderedContentOffset] leaves in [_renderedContentTransform]
    under the transparent sanitizer: the computed string itself. *)
Lemma setRenderedContentOffset_stored (w : World transparentSanitizer)
    (offset : Z) (to : Edge) :
  _renderedContentTransform (vp (setRenderedContentOffset offset to w))
    = Some (contentTransform (orientation (vp w)) offset to)
  /\ orientation (vp (setRenderedContentOffset offset to w))
     = orientation (vp w).
Proof.
  unfold setRenderedContentOffset.
  destruct (transformDiffers (_renderedContentTransform (vp w))
              (contentTransform (orientation (vp w)) offset to)) eqn:E;
    [split; reflexivity|].
  split; [|reflexivity].
  unfold transformDiffers in E.
  destruct (_renderedContentTransform (vp w)) as [v|]; [|discriminate].
  simpl in E. apply negb_false_iff, String.eqb_eq in E. rewrite E. reflexivity.
Qed.

(** X13.  With a sanitizer that returns the string itself, a call of
    [setRenderedContentOffset] that follows another one changes nothing
    exactly when it passes the same offset and the same edge. *)
Theorem X13_offset_guard_exact (w : World transparentSanitizer)
    (offset offset' : Z) (to to' : Edge) :
  let w1 := setRenderedContentOffset offset to w in
  setRenderedContentOffset offset' to' w1 = w1
  <-> offset = offset' /\ to = to'.
Proof.
  intros w1.
  destruct (setRenderedContentOffset_stored w offset to) as [Hst Ho].
  fold w1 in Hst, Ho.
  unfold setRenderedContentOffset at 1. rewrite Hst, Ho. simpl.
  destruct (String.eqb_spec (contentTransform (orientation (vp w)) offset to)
              (contentTransform (orientation (vp w)) offset' to')) as [E|E];
    simpl.
  - split; [intros _|reflexivity].
    destruct (contentTransform_inj _ _ _ _ _ _ E) as (_ & H1 & H2).
    split; assumption.
  - split.
    + intros H. apply (f_equal trace) in H. simpl in H.
      apply (f_equal (@List.length Effect)) in H.
      rewrite length_app in H. simpl in H. lia.
    + intros [H1 H2]. subst. contradiction E. reflexivity.
Qed.

Lemma X3_witness :
  let w := sampleWorld transparentSanitizer in
  let es := [SetScrollOffset 5; SetRenderedRange {| start := 0; end_ := 5 |};
             ScrollSampled; ZoneStable; MicrotaskCheckpoint] in
  forallb (fun e => negb (isDoCheck e)) es = true
  /\ nativeElement (run es w) = nativeElement w.
Proof.
  intros w es.
  assert (H : forallb (fun e => negb (isDoCheck e)) es = true) by reflexivity.
  split; [exact H|].
  exact (proj2 (proj2 (proj2 (X3_element_writes transparentSanitizer w es))) H).
Defined.

Lemma X4_witness :
  let es := [SetRenderedRange {| start := 0; end_ := 5 |};
             SetRenderedRange {| start := 0; end_ := 5 |};
             SetRenderedRange {| start := 5; end_ := 9 |}] in
  let w := run es (newWorld transparentSanitizer Vertical sampleElement) in
  forallb (fun e => negb (isDestroy e)) es = true
  /\ last (rangeEmissions (trace w)) initialRange = getRenderedRange w.
Proof.
  intros es w.
  assert (H : forallb (fun e => negb (isDestroy e)) es = true) by reflexivity.
  split; [exact H|].
  exact (proj2 (X4_range_stream transparentSanitizer Vertical sampleElement es) H).
Defined.


Lemma X7_witness :
  let w := attachedWorld transparentSanitizer in
  let es := [SetRenderedRange {| start := 0; end_ := 5 |}; Detach; NgOnDestroy] in
  forallb (fun e => negb (isDataStreamNext e)) es = true
  /\ getDataLength (run es w) = getDataLength w.
Proof.
  intros w es.
  assert (H : forallb (fun e => negb (isDataStreamNext e)) es = true)
    by reflexivity.
  split; [exact H|].
  exact (proj2 (X7_data_length transparentSanitizer Vertical sampleElement []
                  w es) H).
Defined.

Lemma X8_witness :
  let es := [Attach 1%nat; DataStreamNext 1%nat [4; 5]%nat; Detach;
             Attach 2%nat] in
  let w := run es (newWorld transparentSanitizer Vertical sampleElement) in
  forallb (fun e => negb (isDestroy e)) es = true
  /\ dataSubscriptions w = [2%nat].
Proof.
  intros es w.
  assert (H : forallb (fun e => negb (isDestroy e)) es = true) by reflexivity.
  split; [exact H|].
  exact (proj1 (X8_single_subscription transparentSanitizer Vertical
                  sampleElement es H)).
Defined.

Lemma X12_witness :
  contentTransform Vertical 100 ToEnd = contentTransform Vertical 100 ToEnd
  /\ (Vertical = Vertical /\ 100 = 100 /\ ToEnd = ToEnd).
Proof.
  assert (H : contentTransform Vertical 100 ToEnd
              = contentTransform Vertical 100 ToEnd) by reflexivity.
  split; [exact H|].
  exact (X12_contentTransform_injective Vertical Vertical 100 100 ToEnd ToEnd H).
Defined.
